(** * Icon generation scripts: scale-and-centre arithmetic and canvas model

    Shallow embedding of [create_humaya_icons.py], [create_ios_icons.py]
    and [create_logo.py].

    Python integers are [Z].  Python floats are IEEE-754 binary64 values,
    modelled by the Standard Library's executable specification
    [SpecFloat] at precision 53 and maximal exponent 1024, so that
    [size * 0.8], [logo.width / logo.height] and [int (...)] are computed
    bit for bit as the interpreter computes them.  Images are a width, a
    height and a pixel function; the files written by a run are a finite
    map from paths to images. *)

From Stdlib Require Import ZArith Lia Bool List.
From Stdlib Require Import Floats.SpecFloat.
From stdpp Require Import base gmap strings.
Import ListNotations.

Local Open Scope Z_scope.

(** ** Python exceptions and the error monad *)

Inductive py_error : Set :=
| ZeroDivisionError
| OverflowError
| ValueError.

Inductive result (A : Type) : Type :=
| Ok (a : A)
| Raise (e : py_error).
Arguments Ok {A} a.
Arguments Raise {A} e.

Definition bind {A B : Type} (r : result A) (k : A -> result B) : result B :=
  match r with
  | Ok a => k a
  | Raise e => Raise e
  end.

Notation "'let*' x ':=' c 'in' k" := (bind c (fun x => k))
  (at level 10, x name, c at level 100, k at level 200).

(** ** Binary64 arithmetic as Python performs it *)

Module Py.

Definition prec : Z := 53.
Definition emax : Z := 1024.

Definition float := spec_float.

(** [float(z)] for an integer [z]: round to nearest, ties to even;
    [OverflowError] when the rounded value is not finite. *)
Definition float_of_int (z : Z) : result float :=
  match binary_normalize prec emax z 0 false with
  | S754_infinity _ => Raise OverflowError
  | f => Ok f
  end.

(** [a / b] on two integers: the correctly rounded quotient of the
    integers themselves. *)
Definition int_truediv (a b : Z) : result float :=
  match a, b with
  | _, Z0 => Raise ZeroDivisionError
  | Z0, Zpos _ => Ok (S754_zero false)
  | Z0, Zneg _ => Ok (S754_zero true)
  | _, _ =>
      let '(mz, ez, lz) :=
        SFdiv_core_binary prec emax (Z.abs a) 0 (Z.abs b) 0 in
      match binary_round_aux prec emax (xorb (a <? 0) (b <? 0)) mz ez lz with
      | S754_infinity _ => Raise OverflowError
      | f => Ok f
      end
  end.

Definition is_zero (f : float) : bool :=
  match f with
  | S754_zero _ => true
  | _ => false
  end.

(** [x * y] on floats never raises. *)
Definition float_mul (x y : float) : float := SFmul prec emax x y.

(** [x / y] on floats raises only for a zero divisor. *)
Definition float_div (x y : float) : result float :=
  if is_zero y then Raise ZeroDivisionError else Ok (SFdiv prec emax x y).

(** [i * f] and [i / f] with an integer on the left convert it first. *)
Definition int_mul_float (i : Z) (f : float) : result float :=
  let* x := float_of_int i in Ok (float_mul x f).

Definition int_div_float (i : Z) (f : float) : result float :=
  let* x := float_of_int i in float_div x f.

(** [f > 1]: the integer is compared by value with the float; [1] is
    the canonical float [2^52 * 2^-52]. *)
Definition one : float := S754_finite false 4503599627370496 (-52).

Definition float_gt_one (f : float) : bool := SFltb one f.

(** [int(f)]: truncation toward zero. *)
Definition int_of_float (f : float) : result Z :=
  match f with
  | S754_zero _ => Ok 0
  | S754_infinity _ => Raise OverflowError
  | S754_nan => Raise ValueError
  | S754_finite s m e =>
      let a := match e with
               | Z0 => Zpos m
               | Zpos _ => Zpos m * 2 ^ e
               | Zneg _ => Zpos m / 2 ^ (- e)
               end in
      Ok (if s then - a else a)
  end.

(** The literal [0.8]: the double nearest to 8/10. *)
Definition lit_0_8 : float := S754_finite false 7205759403792794 (-53).

End Py.

(** ** Images and the imaging library calls the scripts make *)

Record pixel : Set := mkPixel { red : Z; green : Z; blue : Z; alpha : Z }.

Record image : Type := mkImage
  { width : Z; height : Z; pixel_at : Z -> Z -> pixel }.

Module PIL.

(** Image dimensions are C [int]s in the imaging library. *)
Definition INT_MAX : Z := 2147483647.

(** [Image.new('RGBA', (w, h), color)]: a canvas filled with [color].
    Negative sides are refused; sides that do not fit a C [int] cannot
    be passed down. *)
Definition new (size : Z * Z) (color : pixel) : result image :=
  let '(w, h) := size in
  if (w <? 0) || (h <? 0) then Raise ValueError
  else if (INT_MAX <? w) || (INT_MAX <? h) then Raise OverflowError
  else Ok (mkImage w h (fun _ _ => color)).

Section Filters.

(** The resampling filter ([Image.Resampling.LANCZOS]) and the
    compositing of one source pixel over one canvas pixel under a
    mask value are the library's; nothing below depends on what they
    compute. *)
Variable resample : image -> Z -> Z -> Z -> Z -> pixel.
Variable blend : pixel -> pixel -> Z -> pixel.

(** [im.resize((w, h), LANCZOS)]: an image of the requested size.
    Asking for the size the image already has returns a copy; any
    other request with a side below 1 is refused. *)
Definition resize (im : image) (size : Z * Z) : result image :=
  let '(w, h) := size in
  if (w =? width im) && (h =? height im) then Ok im
  else if (w <? 1) || (h <? 1) then Raise ValueError
  else Ok (mkImage w h (resample im w h)).

(** [canvas.paste(im, (x, y), mask)]: inside the box that starts at
    [(x, y)] and has the size of [im], each canvas pixel is blended
    with the pixel of [im] under the alpha of [mask]; every other
    canvas pixel is left as it is.  The canvas keeps its size. *)
Definition paste (canvas im : image) (box : Z * Z) (mask : image) : image :=
  let '(x, y) := box in
  mkImage (width canvas) (height canvas)
    (fun i j =>
       if (x <=? i) && (i <? x + width im) && (y <=? j) && (j <? y + height im)
       then blend (pixel_at canvas i j) (pixel_at im (i - x) (j - y))
                  (alpha (pixel_at mask (i - x) (j - y)))
       else pixel_at canvas i j).

End Filters.

End PIL.

(** ** The files a run writes *)

Abbreviation filesystem := (gmap string image).

(** [os.path.join] on relative components. *)
Definition path_join (a b : string) : string := a +:+ "/" +:+ b.

(** [os.makedirs(..., exist_ok=True)] then [icon.save(path, 'PNG')]: the
    file at [path] now holds the image, whatever was there before. *)
Definition save (path : string) (im : image) (fs : filesystem) : filesystem :=
  <[path := im]> fs.

(** ** The scale-and-centre result *)

Record layout : Set := mkLayout
  { new_width : Z; new_height : Z; off_x : Z; off_y : Z }.

(** ** [create_humaya_icons.py] *)

Module Android.

(** Lines 27-40: aspect ratio, content size, centring offsets. *)
Definition scale_and_center (logo_width logo_height size : Z) : result layout :=
  let* logo_aspect := Py.int_truediv logo_width logo_height in
  let* dims :=
    (if Py.float_gt_one logo_aspect then
       let* t := Py.int_mul_float size Py.lit_0_8 in
       let* new_width := Py.int_of_float t in
       let* q := Py.int_div_float new_width logo_aspect in
       let* new_height := Py.int_of_float q in
       Ok (new_width, new_height)
     else
       let* t := Py.int_mul_float size Py.lit_0_8 in
       let* new_height := Py.int_of_float t in
       let* p := Py.int_mul_float new_height logo_aspect in
       let* new_width := Py.int_of_float p in
       Ok (new_width, new_height)) in
  let '(new_width, new_height) := dims in
  let x := (size - new_width) / 2 in
  let y := (size - new_height) / 2 in
  Ok (mkLayout new_width new_height x y).

Definition sizes : list (string * Z) :=
  [ ("mipmap-mdpi", 48); ("mipmap-hdpi", 72); ("mipmap-xhdpi", 96);
    ("mipmap-xxhdpi", 144); ("mipmap-xxxhdpi", 192) ]%string.

Definition base_path : string :=
  "/Users/admin/development/BMS App/android/app/src/main/res".

Definition icon_path (folder : string) : string :=
  path_join (path_join base_path folder) "ic_launcher.png".

(** The paths a run over [entries] saves to, in order. *)
Definition paths (entries : list (string * Z)) : list string :=
  map (fun e => icon_path (fst e)) entries.

Section Run.

Variable resample : image -> Z -> Z -> Z -> Z -> pixel.
Variable blend : pixel -> pixel -> Z -> pixel.

(** Lines 24-43: one icon of side [size] from the logo. *)
Definition render_icon (logo : image) (size : Z) : result image :=
  let* icon := PIL.new (size, size) (mkPixel 255 255 255 0) in
  let* l := scale_and_center (width logo) (height logo) size in
  let* resized_logo :=
    PIL.resize resample logo (new_width l, new_height l) in
  Ok (PIL.paste blend icon resized_logo (off_x l, off_y l) resized_logo).

(** Lines 22-48: the loop over the size table, in insertion order.
    An exception ends the run; the files saved before it stay. *)
Fixpoint for_sizes (entries : list (string * Z)) (logo : image)
         (fs : filesystem) : filesystem * result unit :=
  match entries with
  | [] => (fs, Ok tt)
  | (folder, size) :: rest =>
      match render_icon logo size with
      | Raise e => (fs, Raise e)
      | Ok icon => for_sizes rest logo (save (icon_path folder) icon fs)
      end
  end.

Definition create_app_icons_from_logo (logo : image) (fs : filesystem)
  : filesystem * result unit :=
  for_sizes sizes logo fs.

End Run.

End Android.

(** ** [create_ios_icons.py] *)

Module IOS.

(** Lines 36-49. *)
Definition scale_and_center (logo_width logo_height size : Z) : result layout :=
  let* logo_aspect := Py.int_truediv logo_width logo_height in
  let* dims :=
    (if Py.float_gt_one logo_aspect then
       let* t := Py.int_mul_float size Py.lit_0_8 in
       let* new_width := Py.int_of_float t in
       let* q := Py.int_div_float new_width logo_aspect in
       let* new_height := Py.int_of_float q in
       Ok (new_width, new_height)
     else
       let* t := Py.int_mul_float size Py.lit_0_8 in
       let* new_height := Py.int_of_float t in
       let* p := Py.int_mul_float new_height logo_aspect in
       let* new_width := Py.int_of_float p in
       Ok (new_width, new_height)) in
  let '(new_width, new_height) := dims in
  let x := (size - new_width) / 2 in
  let y := (size - new_height) / 2 in
  Ok (mkLayout new_width new_height x y).

Definition ios_sizes : list (string * Z) :=
  [ ("Icon-App-20x20@1x.png", 20); ("Icon-App-20x20@2x.png", 40);
    ("Icon-App-20x20@3x.png", 60); ("Icon-App-29x29@1x.png", 29);
    ("Icon-App-29x29@2x.png", 58); ("Icon-App-29x29@3x.png", 87);
    ("Icon-App-40x40@1x.png", 40); ("Icon-App-40x40@2x.png", 80);
    ("Icon-App-40x40@3x.png", 120); ("Icon-App-60x60@2x.png", 120);
    ("Icon-App-60x60@3x.png", 180); ("Icon-App-76x76@1x.png", 76);
    ("Icon-App-76x76@2x.png", 152); ("Icon-App-83.5x83.5@2x.png", 167);
    ("Icon-App-1024x1024@1x.png", 1024) ]%string.

Definition base_path : string :=
  "/Users/admin/development/BMS App/ios/Runner/Assets.xcassets/AppIcon.appiconset".

(** The paths a run over [entries] saves to, in order. *)
Definition paths (entries : list (string * Z)) : list string :=
  map (fun e => path_join base_path (fst e)) entries.

Section Run.

Variable resample : image -> Z -> Z -> Z -> Z -> pixel.
Variable blend : pixel -> pixel -> Z -> pixel.

(** Lines 33-52. *)
Definition render_icon (logo : image) (size : Z) : result image :=
  let* icon := PIL.new (size, size) (mkPixel 255 255 255 0) in
  let* l := scale_and_center (width logo) (height logo) size in
  let* resized_logo :=
    PIL.resize resample logo (new_width l, new_height l) in
  Ok (PIL.paste blend icon resized_logo (off_x l, off_y l) resized_logo).

(** Lines 31-58. *)
Fixpoint for_sizes (entries : list (string * Z)) (logo : image)
         (fs : filesystem) : filesystem * result unit :=
  match entries with
  | [] => (fs, Ok tt)
  | (filename, size) :: rest =>
      match render_icon logo size with
      | Raise e => (fs, Raise e)
      | Ok icon =>
          for_sizes rest logo (save (path_join base_path filename) icon fs)
      end
  end.

Definition create_ios_icons_from_logo (logo : image) (fs : filesystem)
  : filesystem * result unit :=
  for_sizes ios_sizes logo fs.

End Run.

End IOS.

(** ** [create_logo.py] *)

Module Logo.

(** A bounding box [[x0, y0, x1, y1]] as the drawing calls receive it. *)
Record box : Set := mkBox { x0 : Z; y0 : Z; x1 : Z; y1 : Z }.

Inductive shape : Set :=
| Ellipse (b : box) (fill : pixel)
| Rectangle (b : box) (fill : pixel).

(** A canvas with the drawing calls made on it, in order. *)
Record drawing : Set := mkDrawing
  { canvas_width : Z; canvas_height : Z; background : pixel;
    shapes : list shape }.

Definition orange_color : pixel := mkPixel 255 102 0 255.
Definition white_color : pixel := mkPixel 255 255 255 255.

(** Lines 6-42. *)
Definition create_humaya_logo (size : Z) : drawing :=
  let margin := size / 10 in
  let circle_size := size - 2 * margin in
  let h_width := size / 3 in
  let h_height := size / 2 in
  let h_thickness := size / 12 in
  let h_x := (size - h_width) / 2 in
  let h_y := (size - h_height) / 2 in
  let h_middle_y := h_y + h_height / 2 - h_thickness / 2 in
  mkDrawing size size (mkPixel 0 0 0 0)
    [ Ellipse (mkBox margin margin (margin + circle_size) (margin + circle_size))
              orange_color;
      Rectangle (mkBox h_x h_y (h_x + h_thickness) (h_y + h_height)) white_color;
      Rectangle (mkBox (h_x + h_width - h_thickness) h_y (h_x + h_width)
                       (h_y + h_height)) white_color;
      Rectangle (mkBox h_x h_middle_y (h_x + h_width) (h_middle_y + h_thickness))
                white_color ].

(** Lines 44-65: the emblem of each density, saved under its directory.
    The files hold the drawings themselves. *)
Definition sizes : list (string * Z) :=
  [ ("mipmap-mdpi", 48); ("mipmap-hdpi", 72); ("mipmap-xhdpi", 96);
    ("mipmap-xxhdpi", 144); ("mipmap-xxxhdpi", 192) ]%string.

Definition base_path : string :=
  "/Users/admin/development/BMS App/android/app/src/main/res".

Definition icon_path (folder : string) : string :=
  path_join (path_join base_path folder) "ic_launcher.png".

(** The paths a run over [entries] saves to, in order. *)
Definition paths (entries : list (string * Z)) : list string :=
  map (fun e => icon_path (fst e)) entries.

Fixpoint for_sizes (entries : list (string * Z)) (fs : gmap string drawing)
  : gmap string drawing :=
  match entries with
  | [] => fs
  | (folder, size) :: rest =>
      for_sizes rest (<[icon_path folder := create_humaya_logo size]> fs)
  end.

Definition create_app_icons (fs : gmap string drawing) : gmap string drawing :=
  for_sizes sizes fs.






End Logo.

(** ** Sample filters and logos for worked examples *)

Module Sample.

(** Nearest-neighbour resampling. *)
Definition nearest (im : image) (w h i j : Z) : pixel :=
  pixel_at im (i * width im / w) (j * height im / h).

(** The source pixel replaces the canvas pixel where the mask is set. *)
Definition over (dst src : pixel) (mask : Z) : pixel :=
  if mask =? 0 then dst else src.

(** A logo of one opaque colour. *)
Definition solid (w h : Z) : image :=
  mkImage w h (fun _ _ => mkPixel 255 102 0 255).

End Sample.

(** ** Vocabulary of the rounding analysis *)

Module Round.

(** [located mrs N D]: the rational [N / D] lies in the unit interval
    that starts at the mantissa of [mrs], at the place the round and
    sticky bits say. *)
Definition located (mrs : shr_record) (N D : Z) : Prop :=
  let m := shr_m mrs in
  m * D <= N < (m + 1) * D /\
  match shr_r mrs, shr_s mrs with
  | false, false => N = m * D
  | false, true => m * D < N /\ 2 * N < (2 * m + 1) * D
  | true, false => 2 * N = (2 * m + 1) * D
  | true, true => (2 * m + 1) * D < 2 * N
  end.

(** [fl M t] is the positive binary64 number [M * 2^-t]. *)
Definition fl (M t : Z) : spec_float := S754_finite false (Z.to_pos M) (- t).

(** [rounded N D f]: [f] is a positive normal binary64 number
    [M * 2^-t] below [2^53] within half a unit in the last place of
    the rational [N / D]. *)
Definition rounded (N D : Z) (f : spec_float) : Prop :=
  exists M t,
    f = fl M t /\
    0 <= t /\ 2 ^ 52 <= M < 2 ^ 53 /\
    2 * Z.abs (M * D - N * 2 ^ t) <= D.

End Round.

(** * Rounding analysis for binary64 *)

Module RoundFacts.
  Import Round.

Lemma digits2_bounds (p : positive) :
  2 ^ (Zpos (digits2_pos p) - 1) <= Zpos p < 2 ^ Zpos (digits2_pos p).
Proof.
  induction p as [p IH | p IH |]; simpl digits2_pos.
  - rewrite Pos2Z.inj_succ.
    replace (Z.succ (Zpos (digits2_pos p)) - 1) with (Z.succ (Zpos (digits2_pos p) - 1)) by lia.
    rewrite !Z.pow_succ_r by lia. lia.
  - rewrite Pos2Z.inj_succ.
    replace (Z.succ (Zpos (digits2_pos p)) - 1) with (Z.succ (Zpos (digits2_pos p) - 1)) by lia.
    rewrite !Z.pow_succ_r by lia. lia.
  - simpl. lia.
Qed.

Lemma digits2_unique (p : positive) (d : Z) :
  2 ^ (d - 1) <= Zpos p < 2 ^ d -> Zpos (digits2_pos p) = d.
Proof.
  intros [Hlo Hhi].
  pose proof (digits2_bounds p) as [Blo Bhi].
  set (d' := Zpos (digits2_pos p)) in *.
  assert (Hd : 0 < d).
  { destruct (Z_lt_le_dec 0 d) as [|Hn]; [assumption|].
    exfalso. destruct (Z.eq_dec d 0) as [->|]; [simpl in Hhi; lia|].
    rewrite Z.pow_neg_r in Hhi by lia. lia. }
  destruct (Z.lt_trichotomy d' d) as [Hlt | [Heq | Hgt]]; [| assumption |].
  - exfalso.
    assert (2 ^ d' <= 2 ^ (d - 1)) by (apply Z.pow_le_mono_r; lia). lia.
  - exfalso.
    assert (2 ^ d <= 2 ^ (d' - 1)) by (apply Z.pow_le_mono_r; lia). lia.
Qed.

Lemma shr_1_located mrs N D :
  0 <= shr_m mrs -> 0 < D ->
  located mrs N D -> located (shr_1 mrs) N (2 * D).
Proof.
  destruct mrs as [m r s]. unfold located.
  cbn [shr_m shr_r shr_s]. intros Hm HD [Hb Hl].
  destruct m as [| p | p]; [| | lia].
  - destruct r, s; cbn [shr_1 shr_m shr_r shr_s orb] in *; lia.
  - destruct p as [p | p |]; destruct r, s;
      cbn [shr_1 shr_m shr_r shr_s orb] in *;
      try rewrite Pos2Z.inj_xI in *; try rewrite Pos2Z.inj_xO in *; nia.
Qed.

Lemma shr_1_nonneg mrs : 0 <= shr_m mrs -> 0 <= shr_m (shr_1 mrs).
Proof.
  destruct mrs as [m r s]. simpl.
  destruct m as [| p | p]; [simpl; lia | | lia].
  destruct p; simpl; lia.
Qed.

Lemma iter_shr_1_located (n : positive) : forall mrs N D,
  0 <= shr_m mrs -> 0 < D ->
  located mrs N D ->
  0 <= shr_m (SpecFloat.iter_pos shr_1 n mrs) /\
  located (SpecFloat.iter_pos shr_1 n mrs) N (2 ^ Zpos n * D).
Proof.
  induction n as [n IH | n IH |]; intros mrs N D Hm HD HL; simpl iter_pos.
  - pose proof (shr_1_nonneg _ Hm) as H1.
    pose proof (shr_1_located _ _ _ Hm HD HL) as L1.
    assert (HD1 : 0 < 2 * D) by lia.
    destruct (IH _ _ _ H1 HD1 L1) as [H2 L2].
    assert (P : 0 < 2 ^ Zpos n) by (apply Z.pow_pos_nonneg; lia).
    assert (HD2 : 0 < 2 ^ Zpos n * (2 * D)) by (apply Z.mul_pos_pos; lia).
    destruct (IH _ _ _ H2 HD2 L2) as [H3 L3].
    split; [assumption|].
    replace (2 ^ Zpos n~1 * D) with (2 ^ Zpos n * (2 ^ Zpos n * (2 * D))); [assumption|].
    assert (E : Zpos n~1 = Zpos n + Zpos n + 1) by lia.
    rewrite E, !Z.pow_add_r by lia. ring.
  - destruct (IH _ _ _ Hm HD HL) as [H2 L2].
    assert (P : 0 < 2 ^ Zpos n) by (apply Z.pow_pos_nonneg; lia).
    assert (HD2 : 0 < 2 ^ Zpos n * D) by (apply Z.mul_pos_pos; lia).
    destruct (IH _ _ _ H2 HD2 L2) as [H3 L3].
    split; [assumption|].
    replace (2 ^ Zpos n~0 * D) with (2 ^ Zpos n * (2 ^ Zpos n * D)); [assumption|].
    assert (E : Zpos n~0 = Zpos n + Zpos n) by lia.
    rewrite E, !Z.pow_add_r by lia. ring.
  - split; [apply shr_1_nonneg; assumption|].
    change (2 ^ 1) with 2. apply shr_1_located; assumption.
Qed.

Lemma round_nearest_even_spec mrs N D :
  0 < D -> located mrs N D ->
  let M := round_nearest_even (shr_m mrs) (loc_of_shr_record mrs) in
  shr_m mrs <= M <= shr_m mrs + 1 /\ 2 * Z.abs (M * D - N) <= D.
Proof.
  destruct mrs as [m r s]. unfold located. cbn [shr_m shr_r shr_s].
  intros HD [Hb Hl].
  destruct r, s; cbn [loc_of_shr_record round_nearest_even];
    try destruct (Z.even m); nia.
Qed.

Lemma shr_fexp_first mx ex lx N D d :
  0 < mx -> 0 < D ->
  located (shr_record_of_loc mx lx) N D ->
  Zdigits2 mx = d -> 53 <= d -> -1074 <= ex + d - 53 ->
  exists mrs,
    shr_fexp Py.prec Py.emax mx ex lx = (mrs, ex + (d - 53)) /\
    2 ^ 52 <= shr_m mrs < 2 ^ 53 /\
    located mrs N (2 ^ (d - 53) * D).
Proof.
  intros Hmx HD HL Hd H53 Hex.
  destruct mx as [| p | p]; try lia.
  simpl in Hd.
  pose proof (digits2_bounds p) as [Blo Bhi]. rewrite Hd in Blo, Bhi.
  assert (Hm : shr_m (shr_record_of_loc (Zpos p) lx) = Zpos p)
    by (destruct lx as [| []]; reflexivity).
  unfold shr_fexp. simpl Zdigits2. rewrite Hd.
  replace (fexp Py.prec Py.emax (d + ex) - ex) with (d - 53)
    by (unfold fexp, emin, Py.prec, Py.emax; lia).
  assert (P52 : 2 ^ (d - 1) = 2 ^ (d - 53) * 2 ^ 52).
  { rewrite <- Z.pow_add_r by lia. f_equal. lia. }
  assert (P53 : 2 ^ d = 2 ^ (d - 53) * 2 ^ 53).
  { rewrite <- Z.pow_add_r by lia. f_equal. lia. }
  assert (Pn : 0 < 2 ^ (d - 53)) by (apply Z.pow_pos_nonneg; lia).
  assert (G : forall mrs, 0 <= shr_m mrs ->
              located mrs N (2 ^ (d - 53) * D) ->
              2 ^ 52 <= shr_m mrs < 2 ^ 53).
  { intros mrs Hn [Hb _].
    destruct HL as [[Lb Ub] _]. rewrite Hm in Lb, Ub.
    set (m := shr_m mrs) in *. set (q := 2 ^ (d - 53)) in *.
    split.
    - assert (2 ^ 52 * (q * D) < (m + 1) * (q * D)) by nia.
      assert (0 < q * D) by nia.
      assert (2 ^ 52 < m + 1) by (apply Z.mul_lt_mono_pos_r with (q * D); assumption).
      lia.
    - assert (m * (q * D) < 2 ^ 53 * (q * D)) by nia.
      assert (0 < q * D) by nia.
      apply Z.mul_lt_mono_pos_r with (q * D); assumption. }
  destruct (d - 53) as [| n | n] eqn:En; try lia.
  - exists (shr_record_of_loc (Zpos p) lx).
    simpl shr. rewrite Z.add_0_r. split; [reflexivity|].
    change (2 ^ 0) with 1 in *. rewrite Z.mul_1_l in *.
    split; [apply G; [rewrite Hm; lia | assumption] | assumption].
  - destruct (iter_shr_1_located n _ N D ltac:(rewrite Hm; lia) HD HL) as [Hn HL'].
    exists (SpecFloat.iter_pos shr_1 n (shr_record_of_loc (Zpos p) lx)).
    simpl shr. split; [reflexivity|].
    split; [apply G; assumption | assumption].
Qed.

Lemma shr_fexp_second M e :
  2 ^ 52 <= M < 2 ^ 53 -> -1074 <= e ->
  shr_fexp Py.prec Py.emax M e loc_Exact = (Build_shr_record M false false, e).
Proof.
  intros HM He.
  destruct M as [| p | p]; try lia.
  unfold shr_fexp. simpl Zdigits2.
  rewrite (digits2_unique p 53) by (simpl Z.sub; lia).
  replace (fexp Py.prec Py.emax (53 + e) - e) with 0
    by (unfold fexp, emin, Py.prec, Py.emax; lia).
  reflexivity.
Qed.

Lemma shr_fexp_carry e :
  -1074 <= e ->
  shr_fexp Py.prec Py.emax (2 ^ 53) e loc_Exact
  = (Build_shr_record (2 ^ 52) false false, e + 1).
Proof.
  intros He. unfold shr_fexp.
  change (Zdigits2 (2 ^ 53)) with 54.
  replace (fexp Py.prec Py.emax (54 + e) - e) with 1
    by (unfold fexp, emin, Py.prec, Py.emax; lia).
  reflexivity.
Qed.

(** The rounding step shared by every operation: a mantissa of at least
    53 digits with its location is rounded to nearest, ties to even. *)
Lemma binary_round_aux_spec mx ex lx N D d :
  0 < mx -> 0 < D ->
  located (shr_record_of_loc mx lx) N D ->
  Zdigits2 mx = d -> 53 <= d ->
  -1074 <= ex + d - 53 -> ex + d - 53 < 0 ->
  rounded N (D * 2 ^ (- ex)) (binary_round_aux Py.prec Py.emax false mx ex lx).
Proof.
  intros Hmx HD HL Hd H53 Hlo Hhi.
  destruct (shr_fexp_first mx ex lx N D d Hmx HD HL Hd H53 Hlo)
    as (mrs & E1 & Hm & HL').
  unfold binary_round_aux. rewrite E1.
  assert (Pn : 0 < 2 ^ (d - 53)) by (apply Z.pow_pos_nonneg; lia).
  assert (HD' : 0 < 2 ^ (d - 53) * D) by (apply Z.mul_pos_pos; lia).
  pose proof (round_nearest_even_spec mrs N _ HD' HL') as [HM Hnear].
  set (M0 := round_nearest_even (shr_m mrs) (loc_of_shr_record mrs)) in *.
  set (e' := ex + (d - 53)) in *.
  assert (Hsplit : 2 ^ (- ex) = 2 ^ (d - 53) * 2 ^ (- e')).
  { rewrite <- Z.pow_add_r by (unfold e'; lia). f_equal. unfold e'. lia. }
  assert (Pt : 0 < 2 ^ (- e')) by (apply Z.pow_pos_nonneg; unfold e'; lia).
  destruct (Z.eq_dec M0 (2 ^ 53)) as [Hc | Hnc].
  - rewrite Hc, shr_fexp_carry by (unfold e'; lia).
    cbn [shr_m]. change (2 ^ 52) with (Zpos (Z.to_pos (2 ^ 52))).
    replace (e' + 1 <=? Py.emax - Py.prec) with true
      by (symmetry; apply Z.leb_le; unfold e', Py.emax, Py.prec; lia).
    exists (2 ^ 52), (- e' - 1).
    split; [unfold fl; f_equal; lia|].
    split; [unfold e'; lia|]. split; [lia|].
    assert (E2 : 2 ^ (- e') = 2 * 2 ^ (- e' - 1)).
    { rewrite <- Z.pow_succ_r by (unfold e'; lia). f_equal. lia. }
    rewrite Hc in Hnear. rewrite Hsplit, E2.
    set (q := 2 ^ (d - 53)) in *. set (u := 2 ^ (- e' - 1)) in *.
    assert (Pu : 0 < u) by lia.
    replace (2 ^ 52 * (D * (q * (2 * u))) - N * u)
      with (u * (2 ^ 53 * (q * D) - N)) by (change (2 ^ 53) with (2 * 2 ^ 52); ring).
    rewrite Z.abs_mul, (Z.abs_eq u) by lia.
    nia.
  - assert (HM0 : 2 ^ 52 <= M0 < 2 ^ 53) by lia.
    rewrite shr_fexp_second by (try assumption; unfold e'; lia).
    cbn [shr_m].
    destruct M0 as [| p | p] eqn:EM; try lia.
    replace (e' <=? Py.emax - Py.prec) with true
      by (symmetry; apply Z.leb_le; unfold e', Py.emax, Py.prec; lia).
    exists (Zpos p), (- e').
    split; [unfold fl; f_equal; lia|].
    split; [unfold e'; lia|]. split; [lia|].
    rewrite Hsplit.
    set (q := 2 ^ (d - 53)) in *. set (u := 2 ^ (- e')) in *.
    replace (Zpos p * (D * (q * u)) - N * u)
      with (u * (Zpos p * (q * D) - N)) by ring.
    rewrite Z.abs_mul, (Z.abs_eq u) by lia.
    nia.
Qed.

Lemma rounded_scale c N D f :
  0 < c -> rounded (N * c) (D * c) f -> rounded N D f.
Proof.
  intros Hc (M & t & E & Ht & HM & Hn).
  exists M, t. repeat split; try assumption; try lia.
  replace (M * (D * c) - N * c * 2 ^ t) with (c * (M * D - N * 2 ^ t)) in Hn by ring.
  rewrite Z.abs_mul, (Z.abs_eq c) in Hn by lia. nia.
Qed.

Lemma iter_xO (k p : positive) :
  Zpos (Pos.iter xO p k) = Zpos p * 2 ^ Zpos k.
Proof.
  induction k as [| k IH] using Pos.peano_ind.
  - simpl. lia.
  - rewrite Pos.iter_succ, Pos2Z.inj_xO, IH, Pos2Z.inj_succ, Z.pow_succ_r by lia. ring.
Qed.

(** [float(z)] is exact below [2^52]. *)
Lemma float_of_int_spec (z : Z) :
  0 < z < 2 ^ 52 ->
  exists f, Py.float_of_int z = Ok f /\ rounded z 1 f.
Proof.
  intros Hz. destruct z as [| p | p]; try lia.
  pose proof (digits2_bounds p) as [Blo Bhi].
  set (d := Zpos (digits2_pos p)) in *.
  assert (Hd : 1 <= d <= 52).
  { split; [unfold d; lia|].
    destruct (Z_le_gt_dec d 52) as [|Hgt]; [assumption|].
    assert (2 ^ 52 <= 2 ^ (d - 1)) by (apply Z.pow_le_mono_r; lia). lia. }
  assert (R : rounded (Zpos p) 1
                (binary_normalize Py.prec Py.emax (Zpos p) 0 false)).
  { unfold binary_normalize, binary_round.
    fold d. rewrite Z.add_0_r.
    replace (fexp Py.prec Py.emax d) with (d - 53)
      by (unfold fexp, emin, Py.prec, Py.emax; lia).
    unfold shl_align.
    destruct (d - 53 - 0) as [| n | n] eqn:En; try lia.
    assert (Ek : Zpos n = 53 - d) by lia.
    set (mz := Pos.iter xO p n).
    assert (Emz : Zpos mz = Zpos p * 2 ^ (53 - d))
      by (unfold mz; rewrite iter_xO, Ek; reflexivity).
    assert (Pk : 0 < 2 ^ (53 - d)) by (apply Z.pow_pos_nonneg; lia).
    assert (P52 : 2 ^ 52 = 2 ^ (d - 1) * 2 ^ (53 - d)).
    { rewrite <- Z.pow_add_r by lia. f_equal. lia. }
    assert (P53 : 2 ^ 53 = 2 ^ d * 2 ^ (53 - d)).
    { rewrite <- Z.pow_add_r by lia. f_equal. lia. }
    assert (Hdig : Zdigits2 (Zpos mz) = 53).
    { simpl Zdigits2. apply digits2_unique. simpl Z.sub. rewrite Emz. nia. }
    apply rounded_scale with (c := 2 ^ (53 - d)); [assumption|].
    rewrite Z.mul_1_l, <- Emz.
    replace (2 ^ (53 - d)) with (1 * 2 ^ (- (d - 53))) by (rewrite Z.mul_1_l; f_equal; lia).
    apply binary_round_aux_spec with (d := 53); try lia; try assumption.
    unfold located. cbn [shr_record_of_loc shr_m shr_r shr_s]. lia. }
  unfold Py.float_of_int.
  destruct R as (M & t & E & R). rewrite E.
  eexists. split; [reflexivity|]. exists M, t. split; [reflexivity | assumption].
Qed.

Lemma new_location_located (b q r : Z) :
  0 < b -> 0 <= r < b ->
  located (shr_record_of_loc q (new_location b r)) (b * q + r) b.
Proof.
  intros Hb Hr. unfold new_location.
  destruct (Z.even b) eqn:Ev.
  - unfold new_location_even.
    destruct (Z.eqb_spec r 0) as [-> | Hr0].
    + unfold located. cbn [shr_record_of_loc shr_m shr_r shr_s]. lia.
    + destruct (Z.compare_spec (2 * r) b); unfold located; cbn [shr_record_of_loc shr_m shr_r shr_s]; lia.
  - unfold new_location_odd.
    assert (Hodd : exists c, b = 2 * c + 1).
    { apply Z.odd_spec. rewrite <- Z.negb_even, Ev. reflexivity. }
    destruct Hodd as [c Hc].
    destruct (Z.eqb_spec r 0) as [-> | Hr0].
    + unfold located. cbn [shr_record_of_loc shr_m shr_r shr_s]. lia.
    + destruct (Z.compare_spec (2 * r + 1) b); unfold located; cbn [shr_record_of_loc shr_m shr_r shr_s]; lia.
Qed.

Lemma quotient_digits (n b q r s : Z) :
  0 < b -> 0 <= r < b -> n = b * q + r -> 0 <= s ->
  2 ^ s * b <= n < 2 ^ (s + 2) * b ->
  0 < q /\ (Zdigits2 q = s + 1 \/ Zdigits2 q = s + 2).
Proof.
  intros Hb Hr Hn Hs [Hlo Hhi].
  assert (Ps : 0 < 2 ^ s) by (apply Z.pow_pos_nonneg; lia).
  assert (E1 : 2 ^ (s + 1) = 2 * 2 ^ s) by (rewrite Z.pow_add_r by lia; ring).
  assert (E2 : 2 ^ (s + 2) = 4 * 2 ^ s) by (rewrite Z.pow_add_r by lia; ring).
  assert (Hq1 : 2 ^ s <= q) by nia.
  assert (Hq2 : q < 2 ^ (s + 2)) by nia.
  split; [lia|].
  destruct q as [| p | p]; try lia.
  simpl Zdigits2.
  destruct (Z_lt_le_dec (Zpos p) (2 ^ (s + 1))).
  - left. apply digits2_unique. replace (s + 1 - 1) with s by lia. lia.
  - right. apply digits2_unique. replace (s + 2 - 1) with (s + 1) by lia. lia.
Qed.

Lemma digits_range (p : positive) (k : Z) :
  0 <= k -> Zpos p < 2 ^ k -> 1 <= Zpos (digits2_pos p) <= k.
Proof.
  intros Hk Hp. pose proof (digits2_bounds p) as [Blo _].
  split; [lia|].
  destruct (Z_le_gt_dec (Zpos (digits2_pos p)) k) as [|Hgt]; [assumption|].
  assert (2 ^ k <= 2 ^ (Zpos (digits2_pos p) - 1)) by (apply Z.pow_le_mono_r; lia).
  lia.
Qed.

(** [a / b] on integers below [2^50] is the correctly rounded quotient. *)
Lemma int_truediv_spec (a b : Z) :
  0 < a < 2 ^ 50 -> 0 < b < 2 ^ 50 ->
  exists f, Py.int_truediv a b = Ok f /\ rounded a b f.
Proof.
  intros Ha Hb.
  destruct a as [| pa | pa]; try lia. destruct b as [| pb | pb]; try lia.
  pose proof (digits2_bounds pa) as [Alo Ahi].
  pose proof (digits2_bounds pb) as [Blo Bhi].
  pose proof (digits_range pa 50 ltac:(lia) ltac:(lia)) as Hd1.
  pose proof (digits_range pb 50 ltac:(lia) ltac:(lia)) as Hd2.
  unfold Py.int_truediv, SFdiv_core_binary.
  change (Z.abs (Zpos pa)) with (Zpos pa). change (Z.abs (Zpos pb)) with (Zpos pb).
  change (Zpos pa <? 0) with false. change (Zpos pb <? 0) with false.
  change (xorb false false) with false.
  change (Zdigits2 (Zpos pa)) with (Zpos (digits2_pos pa)).
  change (Zdigits2 (Zpos pb)) with (Zpos (digits2_pos pb)).
  set (d1 := Zpos (digits2_pos pa)) in *. set (d2 := Zpos (digits2_pos pb)) in *.
  rewrite !Z.add_0_r. change (0 - 0) with 0.
  replace (Z.min (fexp Py.prec Py.emax (d1 - d2)) 0) with (d1 - d2 - 53)
    by (unfold fexp, emin, Py.prec, Py.emax; lia).
  set (s := 53 + d2 - d1).
  replace (0 - (d1 - d2 - 53)) with s by (unfold s; lia).
  assert (Hs : 0 < s) by (unfold s; lia).
  destruct s as [| ps | ps] eqn:Es; try lia. rewrite <- Es in *.
  rewrite Z.shiftl_mul_pow2 by lia.
  assert (Ps : 0 < 2 ^ s) by (apply Z.pow_pos_nonneg; lia).
  pose proof (Z_div_mod (Zpos pa * 2 ^ s) (Zpos pb) ltac:(lia)) as Hdiv.
  destruct (Z.div_eucl (Zpos pa * 2 ^ s) (Zpos pb)) as [q r].
  destruct Hdiv as [Hn Hr].
  assert (Q1 : 2 ^ 52 * 2 ^ d2 = 2 ^ (d1 - 1) * 2 ^ s).
  { rewrite <- !Z.pow_add_r by lia. f_equal. unfold s. lia. }
  assert (Q2 : 2 ^ (52 + 2) * 2 ^ (d2 - 1) = 2 ^ d1 * 2 ^ s).
  { rewrite <- !Z.pow_add_r by lia. f_equal. unfold s. lia. }
  destruct (quotient_digits _ (Zpos pb) q r 52 ltac:(lia) Hr Hn ltac:(lia))
    as [Hq Hdig]; [split; nia|].
  assert (R : rounded (Zpos pa) (Zpos pb)
                (binary_round_aux Py.prec Py.emax false q (d1 - d2 - 53)
                   (new_location (Zpos pb) r))).
  { apply rounded_scale with (c := 2 ^ s); [assumption|].
    rewrite Hn. replace s with (- (d1 - d2 - 53)) by (unfold s; lia).
    destruct Hdig as [Hdig | Hdig].
    - apply binary_round_aux_spec with (d := 53); try lia.
      apply new_location_located; lia.
    - apply binary_round_aux_spec with (d := 54); try lia.
      apply new_location_located; lia. }
  destruct R as (M & t & E & R). rewrite E.
  eexists. split; [reflexivity|]. exists M, t. split; [reflexivity | assumption].
Qed.

Lemma rounded_scale_up c N D f :
  0 < c -> rounded N D f -> rounded (N * c) (D * c) f.
Proof.
  intros Hc (M & t & E & Ht & HM & Hn).
  exists M, t. repeat split; try assumption; try lia.
  replace (M * (D * c) - N * c * 2 ^ t) with (c * (M * D - N * 2 ^ t)) by ring.
  rewrite Z.abs_mul, (Z.abs_eq c) by lia. nia.
Qed.

Lemma float_mul_spec (M1 t1 M2 t2 : Z) :
  2 ^ 52 <= M1 < 2 ^ 53 -> 2 ^ 52 <= M2 < 2 ^ 53 ->
  54 <= t1 + t2 <= 1100 ->
  rounded (M1 * M2) (2 ^ (t1 + t2)) (Py.float_mul (fl M1 t1) (fl M2 t2)).
Proof.
  intros H1 H2 Ht.
  unfold Py.float_mul, fl, SFmul. cbn [xorb].
  rewrite Pos2Z.inj_mul, !Z2Pos.id by lia.
  replace (2 ^ (t1 + t2)) with (1 * 2 ^ (- (- t1 + - t2)))
    by (rewrite Z.mul_1_l; f_equal; lia).
  assert (Hp : 2 ^ 104 <= M1 * M2 < 2 ^ 106).
  { change (2 ^ 104) with (2 ^ 52 * 2 ^ 52). change (2 ^ 106) with (2 ^ 53 * 2 ^ 53).
    split; nia. }
  assert (Hloc : located (shr_record_of_loc (M1 * M2) loc_Exact) (M1 * M2) 1).
  { unfold located. cbn [shr_record_of_loc shr_m shr_r shr_s]. lia. }
  destruct (M1 * M2) as [| p | p] eqn:Ep; try lia.
  destruct (Z_lt_le_dec (Zpos p) (2 ^ 105)).
  - apply binary_round_aux_spec with (d := 105); try lia; try assumption.
    simpl Zdigits2. apply digits2_unique. simpl Z.sub. lia.
  - apply binary_round_aux_spec with (d := 106); try lia; try assumption.
    simpl Zdigits2. apply digits2_unique. simpl Z.sub. lia.
Qed.

Lemma float_div_spec (M1 t1 M2 t2 : Z) :
  2 ^ 52 <= M1 < 2 ^ 53 -> 2 ^ 52 <= M2 < 2 ^ 53 ->
  0 <= t1 <= 1000 -> 0 <= t2 <= 1000 -> t2 - t1 <= 51 ->
  exists f, Py.float_div (fl M1 t1) (fl M2 t2) = Ok f /\
            rounded (M1 * 2 ^ t2) (M2 * 2 ^ t1) f.
Proof.
  intros H1 H2 Ht1 Ht2 Ht.
  unfold Py.float_div, fl. cbn [Py.is_zero].
  eexists. split; [reflexivity|].
  unfold SFdiv, SFdiv_core_binary. cbn [xorb Zdigits2].
  rewrite (digits2_unique (Z.to_pos M1) 53) by (rewrite Z2Pos.id by lia; simpl Z.sub; lia).
  rewrite (digits2_unique (Z.to_pos M2) 53) by (rewrite Z2Pos.id by lia; simpl Z.sub; lia).
  rewrite !Z2Pos.id by lia.
  replace (Z.min (fexp Py.prec Py.emax (53 + - t1 - (53 + - t2))) (- t1 - - t2))
    with (t2 - t1 - 53) by (unfold fexp, emin, Py.prec, Py.emax; lia).
  replace (- t1 - - t2 - (t2 - t1 - 53)) with 53 by lia.
  cbv iota. rewrite Z.shiftl_mul_pow2 by lia.
  pose proof (Z_div_mod (M1 * 2 ^ 53) M2 ltac:(lia)) as Hdiv.
  destruct (Z.div_eucl (M1 * 2 ^ 53) M2) as [q r].
  destruct Hdiv as [Hn Hr].
  destruct (quotient_digits _ M2 q r 52 ltac:(lia) Hr Hn ltac:(lia))
    as [Hq Hdig]; [simpl Z.add; lia|].
  assert (Pt1 : 0 < 2 ^ t1) by (apply Z.pow_pos_nonneg; lia).
  assert (Pt2 : 0 < 2 ^ t2) by (apply Z.pow_pos_nonneg; lia).
  apply rounded_scale with (c := 2 ^ 53); [lia|].
  replace (M1 * 2 ^ t2 * 2 ^ 53) with (M1 * 2 ^ 53 * 2 ^ t2) by ring.
  replace (M2 * 2 ^ t1 * 2 ^ 53) with (M2 * 2 ^ (- (t2 - t1 - 53)) * 2 ^ t2).
  2:{ rewrite <- !Z.mul_assoc, <- !Z.pow_add_r by lia. do 2 f_equal. lia. }
  apply rounded_scale_up; [assumption|].
  rewrite Hn.
  destruct Hdig as [Hdig | Hdig].
  - apply binary_round_aux_spec with (d := 53); try lia.
    apply new_location_located; lia.
  - apply binary_round_aux_spec with (d := 54); try lia.
    apply new_location_located; lia.
Qed.

Lemma int_of_float_fl (M t : Z) :
  0 < M -> 0 <= t -> Py.int_of_float (fl M t) = Ok (M / 2 ^ t).
Proof.
  intros HM Ht. unfold Py.int_of_float, fl.
  destruct t as [| p | p]; try lia.
  - change (- 0) with 0. cbv iota. rewrite Z2Pos.id by lia.
    change (2 ^ 0) with 1. rewrite Z.div_1_r. reflexivity.
  - change (- Zpos p) with (Zneg p). cbv iota. rewrite Z2Pos.id by lia. reflexivity.
Qed.

Lemma float_gt_one_fl (M t : Z) :
  2 ^ 52 <= M < 2 ^ 53 -> 0 <= t ->
  Py.float_gt_one (fl M t) = true <-> 2 ^ t < M.
Proof.
  intros HM Ht. unfold Py.float_gt_one, Py.one, fl, SFltb, SFcompare.
  destruct (Z.compare_spec (-52) (- t)) as [E | L | G].
  - assert (t = 52) by lia. subst t.
    change (Pos.compare_cont Eq 4503599627370496 (Z.to_pos M))
      with (Pos.compare 4503599627370496 (Z.to_pos M)).
    destruct (Pos.compare_spec 4503599627370496 (Z.to_pos M)) as [E' | L' | G'].
    + split; [discriminate|]. apply (f_equal Zpos) in E'.
      rewrite Z2Pos.id in E' by lia. change (2 ^ 52) with 4503599627370496. lia.
    + split; [|reflexivity]. intros _.
      apply Pos2Z.pos_lt_pos in L'. rewrite Z2Pos.id in L' by lia. exact L'.
    + split; [discriminate|].
      apply Pos2Z.pos_lt_pos in G'. rewrite Z2Pos.id in G' by lia.
      change (2 ^ 52) with 4503599627370496. lia.
  - split; [|reflexivity]. intros _.
    assert (2 ^ t < 2 ^ 52) by (apply Z.pow_lt_mono_r; lia). lia.
  - split; [discriminate|].
    assert (2 ^ 53 <= 2 ^ t) by (apply Z.pow_le_mono_r; lia). lia.
Qed.

(** *** Consequences of nearness for the truncated value *)

Lemma near_le (M t N D k : Z) :
  0 < D -> 0 <= t -> 2 * Z.abs (M * D - N * 2 ^ t) <= D ->
  N <= k * D -> M / 2 ^ t <= k.
Proof.
  intros HD Ht Hn Hk.
  assert (PT : 0 < 2 ^ t) by (apply Z.pow_pos_nonneg; lia).
  set (T := 2 ^ t) in *.
  assert (HM : M <= k * T).
  { destruct (Z_le_gt_dec M (k * T)) as [|Hgt]; [assumption|]. exfalso.
    assert (D <= (M - k * T) * D) by nia.
    assert (N * T <= k * D * T) by nia.
    lia. }
  apply Z.div_le_upper_bound; lia.
Qed.

Lemma near_ge (M t N D k : Z) :
  0 < D -> 0 <= t -> 2 * Z.abs (M * D - N * 2 ^ t) <= D ->
  k * D <= N -> k <= M / 2 ^ t.
Proof.
  intros HD Ht Hn Hk.
  assert (PT : 0 < 2 ^ t) by (apply Z.pow_pos_nonneg; lia).
  set (T := 2 ^ t) in *.
  assert (HM : k * T <= M).
  { destruct (Z_le_gt_dec (k * T) M) as [|Hgt]; [assumption|]. exfalso.
    assert (D <= (k * T - M) * D) by nia.
    assert (k * D * T <= N * T) by nia.
    lia. }
  apply Z.div_le_lower_bound; lia.
Qed.

(** A value within half a unit of [N / D], itself within [2^-52]
    relative distance of [X / Y], truncates to the floor of [X / Y], or
    to one less when [X / Y] is an integer. *)
Lemma near_floor (M t N D X Y : Z) :
  0 < D -> 0 <= t -> 2 ^ 52 <= M ->
  2 * Z.abs (M * D - N * 2 ^ t) <= D ->
  2 ^ 52 * Z.abs (N * Y - X * D) <= X * D ->
  0 <= X < 2 ^ 51 -> 0 < Y ->
  X / Y - 1 <= M / 2 ^ t <= X / Y /\
  (X mod Y <> 0 -> M / 2 ^ t = X / Y).
Proof.
  intros HD Ht HM Hn Hrel HX HY.
  assert (PT : 0 < 2 ^ t) by (apply Z.pow_pos_nonneg; lia).
  set (T := 2 ^ t) in *.
  set (a := M * D - N * T) in *. set (b := N * Y - X * D) in *.
  set (c := M * Y - X * T).
  assert (Ec : c * D = Y * a + T * b) by (unfold a, b, c; ring).
  assert (E0 : 2 ^ 53 * Z.abs c <= 2 ^ 52 * Y + 2 * T * X).
  { assert (Htri : Z.abs (c * D) <= Y * Z.abs a + T * Z.abs b).
    { rewrite Ec. eapply Z.le_trans; [apply Z.abs_triangle|].
      rewrite !Z.abs_mul, (Z.abs_eq Y), (Z.abs_eq T) by lia. lia. }
    rewrite Z.abs_mul, (Z.abs_eq D) in Htri by lia.
    assert (H1 : 2 ^ 53 * (Y * Z.abs a) <= 2 ^ 52 * Y * D).
    { change (2 ^ 53) with (2 ^ 52 * 2). nia. }
    assert (H2 : 2 ^ 53 * (T * Z.abs b) <= 2 * T * X * D).
    { change (2 ^ 53) with (2 * 2 ^ 52).
      assert (T * (2 ^ 52 * Z.abs b) <= T * (X * D)) by (apply Z.mul_le_mono_nonneg_l; lia).
      lia. }
    assert (H3 : (2 ^ 53 * Z.abs c) * D <= (2 ^ 52 * Y + 2 * T * X) * D) by nia.
    apply Z.mul_le_mono_pos_r with D; assumption. }
  assert (HTX : 2 ^ 51 * Y <= T * X).
  { assert (c <= Z.abs c) by lia.
    assert (2 ^ 52 * Y <= M * Y) by nia.
    unfold c in *. lia. }
  assert (Hc : Z.abs c < T).
  { assert (2 ^ 51 * Z.abs c <= T * X) by lia.
    assert (T * X < T * 2 ^ 51) by (apply Z.mul_lt_mono_pos_l; lia).
    lia. }
  pose proof (Z_div_mod_eq_full X Y) as EX.
  pose proof (Z.mod_pos_bound X Y HY) as Hf.
  set (k := X / Y) in *. set (f := X mod Y) in *.
  assert (Hup : M / T <= k).
  { assert (M / T < k + 1); [|lia].
    apply Z.div_lt_upper_bound; [assumption|].
    assert (Y * M < Y * (T * (k + 1))).
    { assert ((X + 1) * T <= (Y * k + Y) * T) by (apply Z.mul_le_mono_nonneg_r; lia).
      unfold c in Hc. nia. }
    apply Z.mul_lt_mono_pos_l with Y; assumption. }
  split; [split; [|assumption]|].
  - apply Z.div_le_lower_bound; [assumption|].
    assert (Y * (T * (k - 1)) < Y * (M + 1)).
    { assert ((Y * k - Y) * T <= (X - 1) * T) by (apply Z.mul_le_mono_nonneg_r; lia).
      unfold c in Hc. nia. }
    assert (T * (k - 1) < M + 1) by (apply Z.mul_lt_mono_pos_l with Y; assumption).
    lia.
  - intros Hf0. apply Z.le_antisymm; [assumption|].
    apply Z.div_le_lower_bound; [assumption|].
    assert (Y * (T * k) < Y * (M + 1)).
    { assert ((Y * k) * T <= (X - 1) * T) by (apply Z.mul_le_mono_nonneg_r; lia).
      unfold c in Hc. nia. }
    assert (T * k < M + 1) by (apply Z.mul_lt_mono_pos_l with Y; assumption).
    lia.
Qed.

Lemma rounded_exp_bound (M t N D : Z) :
  0 < N -> 0 < D < 2 ^ 50 -> 0 <= t -> M < 2 ^ 53 ->
  2 * Z.abs (M * D - N * 2 ^ t) <= D -> t <= 103.
Proof.
  intros HN HD Ht HM Hn.
  assert (PT : 0 < 2 ^ t) by (apply Z.pow_pos_nonneg; lia).
  destruct (Z_le_gt_dec t 103) as [|Hgt]; [assumption|]. exfalso.
  assert (HT : 2 ^ 104 <= 2 ^ t) by (apply Z.pow_le_mono_r; lia).
  assert (2 ^ t <= N * 2 ^ t) by nia.
  assert (M * D < 2 ^ 53 * 2 ^ 50) by nia.
  change (2 ^ 104) with (2 * (2 ^ 53 * 2 ^ 50)) in HT. lia.
Qed.

(** The aspect ratio of a logo of sane dimensions, and the branch the
    script takes on it. *)
Lemma aspect_spec (w h : Z) :
  0 < w < 2 ^ 50 -> 0 < h < 2 ^ 50 ->
  exists Ma ta,
    Py.int_truediv w h = Ok (fl Ma ta) /\
    2 ^ 52 <= Ma < 2 ^ 53 /\ 0 <= ta <= 103 /\
    2 * Z.abs (Ma * h - w * 2 ^ ta) <= h /\
    (Py.float_gt_one (fl Ma ta) = true <-> h < w).
Proof.
  intros Hw Hh.
  destruct (int_truediv_spec w h Hw Hh) as (f & E & Ma & ta & -> & Ht & HM & Hn).
  exists Ma, ta. split; [assumption|]. split; [assumption|].
  pose proof (rounded_exp_bound Ma ta w h ltac:(lia) Hh Ht ltac:(lia) Hn) as Hub.
  split; [lia|]. split; [assumption|].
  rewrite float_gt_one_fl by lia.
  assert (PT : 0 < 2 ^ ta) by (apply Z.pow_pos_nonneg; lia).
  set (T := 2 ^ ta) in *.
  split; intros H.
  - destruct (Z_lt_le_dec h w) as [|Hle]; [assumption|]. exfalso.
    assert (h <= (Ma - T) * h) by nia.
    assert (w * T <= h * T) by nia. lia.
  - destruct (Z_lt_le_dec T Ma) as [|Hle]; [assumption|]. exfalso.
    assert (T <= (w - h) * T) by nia.
    assert (Ma * h <= T * h) by nia.
    assert (T <= w * T - Ma * h) by lia.
    assert (2 ^ 52 <= T) by lia.
    change (2 ^ 52) with (4 * 2 ^ 50) in *. lia.
Qed.

Lemma float_of_int_fl (z : Z) :
  0 < z < 2 ^ 49 ->
  exists M t,
    Py.float_of_int z = Ok (fl M t) /\
    2 ^ 52 <= M < 2 ^ 53 /\ 4 <= t <= 52 /\ M = z * 2 ^ t.
Proof.
  intros Hz.
  destruct (float_of_int_spec z) as (f & E & M & t & -> & Ht & HM & Hn);
    [change (2 ^ 52) with (8 * 2 ^ 49); lia|].
  exists M, t. split; [assumption|]. split; [assumption|].
  assert (PT : 0 < 2 ^ t) by (apply Z.pow_pos_nonneg; lia).
  assert (EM : M = z * 2 ^ t) by lia.
  split; [|assumption]. split.
  - destruct (Z_le_gt_dec 4 t) as [|Hlt]; [assumption|]. exfalso.
    assert (2 ^ t <= 2 ^ 3) by (apply Z.pow_le_mono_r; lia).
    assert (z * 2 ^ t <= z * 2 ^ 3) by (apply Z.mul_le_mono_nonneg_l; lia).
    change (2 ^ 52) with (2 ^ 49 * 2 ^ 3) in HM. lia.
  - destruct (Z_le_gt_dec t 52) as [|Hgt]; [assumption|]. exfalso.
    assert (2 ^ 53 <= 2 ^ t) by (apply Z.pow_le_mono_r; lia). nia.
Qed.

(** [int(size * 0.8)] is exactly the floor of [4 * size / 5]. *)
Lemma primary_dim (size : Z) :
  0 < size < 2 ^ 49 ->
  exists tf, Py.int_mul_float size Py.lit_0_8 = Ok tf /\
             Py.int_of_float tf = Ok (4 * size / 5).
Proof.
  intros Hs.
  destruct (float_of_int_fl size Hs) as (Ms & ts & E & HMs & Hts & EMs).
  unfold Py.int_mul_float. rewrite E. cbn [bind].
  eexists. split; [reflexivity|].
  change Py.lit_0_8 with (fl 7205759403792794 53).
  destruct (float_mul_spec Ms ts 7205759403792794 53 HMs ltac:(lia) ltac:(lia))
    as (M & t & -> & Ht & HM & Hn).
  rewrite int_of_float_fl by lia. f_equal.
  assert (PT : 0 < 2 ^ ts) by (apply Z.pow_pos_nonneg; lia).
  assert (PD : 0 < 2 ^ (ts + 53)) by (apply Z.pow_pos_nonneg; lia).
  assert (ED : 2 ^ (ts + 53) = 2 ^ ts * 9007199254740992)
    by (rewrite Z.pow_add_r by lia; reflexivity).
  pose proof (Z_div_mod_eq_full (4 * size) 5) as EX.
  pose proof (Z.mod_pos_bound (4 * size) 5 ltac:(lia)) as Hf.
  apply Z.le_antisymm.
  - apply (near_floor M t (Ms * 7205759403792794) (2 ^ (ts + 53)) (4 * size) 5);
      try assumption; lia.
  - apply (near_ge M t (Ms * 7205759403792794) (2 ^ (ts + 53))); try assumption.
    rewrite EMs, ED.
    set (k := 4 * size / 5) in *.
    assert (k * 9007199254740992 <= size * 7205759403792794) by lia.
    nia.
Qed.

(** The dependent dimension on the wide branch:
    [int(new_width / logo_aspect)]. *)
Lemma secondary_div (m w h Ma ta : Z) :
  0 <= m < 2 ^ 49 -> 0 < w -> 0 < h < 2 ^ 50 ->
  2 ^ 52 <= Ma < 2 ^ 53 -> 0 <= ta <= 103 ->
  2 * Z.abs (Ma * h - w * 2 ^ ta) <= h ->
  2 ^ ta < Ma ->
  exists q n,
    Py.int_div_float m (fl Ma ta) = Ok q /\ Py.int_of_float q = Ok n /\
    0 <= n <= m /\
    (m * h < 2 ^ 51 ->
     m * h / w - 1 <= n <= m * h / w /\
     ((m * h) mod w <> 0 -> n = m * h / w)).
Proof.
  intros Hm Hw Hh HMa Hta Hn Hgt.
  assert (PTa : 0 < 2 ^ ta) by (apply Z.pow_pos_nonneg; lia).
  destruct (Z.eq_dec m 0) as [-> | Hm0].
  - exists (S754_zero false), 0.
    split; [reflexivity|]. split; [reflexivity|]. split; [lia|].
    intros _. rewrite Z.mul_0_l, Zdiv_0_l, Zmod_0_l. lia.
  - destruct (float_of_int_fl m) as (Mm & tm & E & HMm & Htm & EMm); [lia|].
    assert (Hta52 : ta <= 52).
    { destruct (Z_le_gt_dec ta 52) as [|G]; [assumption|]. exfalso.
      assert (2 ^ 53 <= 2 ^ ta) by (apply Z.pow_le_mono_r; lia). lia. }
    destruct (float_div_spec Mm tm Ma ta HMm HMa ltac:(lia) ltac:(lia) ltac:(lia))
      as (q & Eq & M & t & -> & Ht & HM & Hq).
    exists (fl M t), (M / 2 ^ t).
    unfold Py.int_div_float. rewrite E. cbn [bind].
    split; [assumption|]. split; [apply int_of_float_fl; lia|].
    assert (PTm : 0 < 2 ^ tm) by (apply Z.pow_pos_nonneg; lia).
    assert (PT : 0 < 2 ^ t) by (apply Z.pow_pos_nonneg; lia).
    assert (PD : 0 < Ma * 2 ^ tm) by (apply Z.mul_pos_pos; lia).
    set (Ta := 2 ^ ta) in *. set (Tm := 2 ^ tm) in *.
    split; [split|].
    + apply Z.div_pos; lia.
    + apply (near_le M t (Mm * Ta) (Ma * Tm)); try assumption.
      rewrite EMm. nia.
    + intros HX.
      apply (near_floor M t (Mm * Ta) (Ma * Tm) (m * h) w); try assumption; try lia.
      * rewrite EMm.
        replace (m * Tm * Ta * w - m * h * (Ma * Tm))
          with ((m * Tm) * (- (Ma * h - w * Ta))) by ring.
        rewrite Z.abs_mul, Z.abs_opp, (Z.abs_eq (m * Tm)) by nia.
        replace (m * h * (Ma * Tm)) with ((m * Tm) * (h * Ma)) by ring.
        rewrite Z.mul_assoc, (Z.mul_comm (2 ^ 52)), <- Z.mul_assoc.
        apply Z.mul_le_mono_nonneg_l; [nia|].
        assert (2 * (2 ^ 51 * Z.abs (Ma * h - w * Ta)) <= 2 ^ 51 * h) by nia.
        assert (2 ^ 52 * h <= h * Ma) by nia.
        change (2 ^ 52) with (2 * 2 ^ 51) in *. lia.
Qed.

(** The dependent dimension on the tall branch:
    [int(new_height * logo_aspect)]. *)
Lemma secondary_mul (m w h Ma ta : Z) :
  0 <= m < 2 ^ 49 -> 0 < w < 2 ^ 50 -> 0 < h ->
  2 ^ 52 <= Ma < 2 ^ 53 -> 0 <= ta <= 103 ->
  2 * Z.abs (Ma * h - w * 2 ^ ta) <= h ->
  Ma <= 2 ^ ta ->
  exists p n,
    Py.int_mul_float m (fl Ma ta) = Ok p /\ Py.int_of_float p = Ok n /\
    0 <= n <= m /\
    (m * w < 2 ^ 51 ->
     m * w / h - 1 <= n <= m * w / h /\
     ((m * w) mod h <> 0 -> n = m * w / h)).
Proof.
  intros Hm Hw Hh HMa Hta Hn Hle.
  assert (PTa : 0 < 2 ^ ta) by (apply Z.pow_pos_nonneg; lia).
  destruct (Z.eq_dec m 0) as [-> | Hm0].
  - exists (S754_zero false), 0.
    split; [reflexivity|]. split; [reflexivity|]. split; [lia|].
    intros _. rewrite Z.mul_0_l, Zdiv_0_l, Zmod_0_l. lia.
  - destruct (float_of_int_fl m) as (Mm & tm & E & HMm & Htm & EMm); [lia|].
    assert (Hta52 : 52 <= ta).
    { destruct (Z_le_gt_dec 52 ta) as [|G]; [assumption|]. exfalso.
      assert (2 ^ ta <= 2 ^ 51) by (apply Z.pow_le_mono_r; lia).
      change (2 ^ 52) with (2 * 2 ^ 51) in *. lia. }
    destruct (float_mul_spec Mm tm Ma ta HMm HMa ltac:(lia))
      as (M & t & Ep & Ht & HM & Hq).
    exists (fl M t), (M / 2 ^ t).
    unfold Py.int_mul_float. rewrite E. cbn [bind]. rewrite Ep.
    split; [reflexivity|]. split; [apply int_of_float_fl; lia|].
    assert (PTm : 0 < 2 ^ tm) by (apply Z.pow_pos_nonneg; lia).
    assert (PT : 0 < 2 ^ t) by (apply Z.pow_pos_nonneg; lia).
    rewrite Z.pow_add_r in Hq by lia.
    set (Ta := 2 ^ ta) in *. set (Tm := 2 ^ tm) in *.
    assert (PD : 0 < Tm * Ta) by (apply Z.mul_pos_pos; lia).
    split; [split|].
    + apply Z.div_pos; lia.
    + apply (near_le M t (Mm * Ma) (Tm * Ta)); try assumption.
      rewrite EMm. nia.
    + intros HX.
      apply (near_floor M t (Mm * Ma) (Tm * Ta) (m * w) h); try assumption; try lia.
      * rewrite EMm.
        replace (m * Tm * Ma * h - m * w * (Tm * Ta))
          with ((m * Tm) * (Ma * h - w * Ta)) by ring.
        rewrite Z.abs_mul, (Z.abs_eq (m * Tm)) by nia.
        replace (m * w * (Tm * Ta)) with ((m * Tm) * (w * Ta)) by ring.
        rewrite Z.mul_assoc, (Z.mul_comm (2 ^ 52)), <- Z.mul_assoc.
        apply Z.mul_le_mono_nonneg_l; [nia|].
        assert (2 * (2 ^ 51 * Z.abs (Ma * h - w * Ta)) <= 2 ^ 51 * h) by nia.
        assert (2 ^ 52 * h <= Ma * h) by nia.
        change (2 ^ 52) with (2 * 2 ^ 51) in *. lia.
Qed.

(** The whole computation on a logo and a size of sane magnitude: it
    returns, the leading dimension is the exact floor of four fifths of
    the size, and the dependent dimension is the exact floor of the
    scaled side, or one less when that scaled side is an integer. *)
Lemma scale_and_center_spec (w h size : Z) :
  0 < w < 2 ^ 50 -> 0 < h < 2 ^ 50 -> 0 < size < 2 ^ 49 ->
  exists l,
    Android.scale_and_center w h size = Ok l /\
    off_x l = (size - new_width l) / 2 /\
    off_y l = (size - new_height l) / 2 /\
    (h < w ->
     new_width l = 4 * size / 5 /\
     0 <= new_height l <= 4 * size / 5 /\
     (4 * size / 5 * h < 2 ^ 51 ->
      4 * size / 5 * h / w - 1 <= new_height l <= 4 * size / 5 * h / w /\
      ((4 * size / 5 * h) mod w <> 0 ->
       new_height l = 4 * size / 5 * h / w))) /\
    (w <= h ->
     new_height l = 4 * size / 5 /\
     0 <= new_width l <= 4 * size / 5 /\
     (4 * size / 5 * w < 2 ^ 51 ->
      4 * size / 5 * w / h - 1 <= new_width l <= 4 * size / 5 * w / h /\
      ((4 * size / 5 * w) mod h <> 0 ->
       new_width l = 4 * size / 5 * w / h))).
Proof.
  intros Hw Hh Hs.
  destruct (aspect_spec w h Hw Hh) as (Ma & ta & Ea & HMa & Hta & Hn & Hgt).
  destruct (primary_dim size Hs) as (tf & Et & Ei).
  set (m := 4 * size / 5) in *.
  assert (Hm : 0 <= m < 2 ^ 49).
  { unfold m. split; [apply Z.div_pos; lia|].
    apply Z.div_lt_upper_bound; lia. }
  unfold Android.scale_and_center. rewrite Ea. cbn [bind].
  destruct (Py.float_gt_one (fl Ma ta)) eqn:Eg.
  - assert (Hwh : h < w) by (apply Hgt; reflexivity).
    assert (HT : 2 ^ ta < Ma) by (apply float_gt_one_fl; [lia | lia | assumption]).
    destruct (secondary_div m w h Ma ta Hm ltac:(lia) Hh HMa Hta Hn HT)
      as (q & n & Eq & En & Hb & Hfl).
    rewrite Et. cbn [bind]. rewrite Ei. cbn [bind].
    rewrite Eq. cbn [bind]. rewrite En. cbn [bind].
    eexists. split; [reflexivity|]. cbn [new_width new_height off_x off_y].
    split; [reflexivity|]. split; [reflexivity|].
    split; [intros _; split; [reflexivity|]; split; assumption | intros; lia].
  - assert (Hwh : w <= h).
    { destruct (Z_le_gt_dec w h) as [|G]; [assumption|].
      assert (false = true) by (apply Hgt; lia). discriminate. }
    assert (HT : Ma <= 2 ^ ta).
    { destruct (Z_le_gt_dec Ma (2 ^ ta)) as [|G]; [assumption|].
      assert (Py.float_gt_one (fl Ma ta) = true)
        by (apply float_gt_one_fl; [lia | lia | lia]). congruence. }
    destruct (secondary_mul m w h Ma ta Hm Hw ltac:(lia) HMa Hta Hn HT)
      as (p & n & Ep & En & Hb & Hfl).
    rewrite Et. cbn [bind]. rewrite Ei. cbn [bind].
    rewrite Ep. cbn [bind]. rewrite En. cbn [bind].
    eexists. split; [reflexivity|]. cbn [new_width new_height off_x off_y].
    split; [reflexivity|]. split; [reflexivity|].
    split; [intros; lia | intros _; split; [reflexivity|]; split; assumption].
Qed.

End RoundFacts.

(** * Properties of the scale-and-centre computation *)

Import Round RoundFacts.

Lemma int_max_lt_pow49 : PIL.INT_MAX < 2 ^ 49.
Proof. reflexivity. Qed.

(** C6. A 200 x 100 logo on a 96 pixel icon: content 76 x 38 pasted at
    (10, 29). *)
Theorem layout_200x100_at_96 :
  Android.scale_and_center 200 100 96 = Ok (mkLayout 76 38 10 29).
Proof. vm_compute. reflexivity. Qed.

(** C10. Positive source dimensions and a positive target size do not
    give positive content dimensions: a 100 x 1 logo on a 48 pixel icon
    gets content width 38 and content height 0. *)
Theorem zero_content_dimension :
  exists w h size l,
    0 < w /\ 0 < h /\ 0 < size /\
    (w, h, size) = (100, 1, 48) /\
    Android.scale_and_center w h size = Ok l /\
    new_width l = 38 /\ new_height l = 0.
Proof.
  exists 100, 1, 48, (mkLayout 38 0 5 24).
  split; [lia|]. split; [lia|]. split; [lia|]. split; [reflexivity|].
  split; [vm_compute; reflexivity|]. split; reflexivity.
Qed.

(** C9. The Android script and the iOS script compute the same content
    size and offsets from the same logo dimensions and target size. *)
Theorem android_ios_same_layout (w h size : Z) :
  Android.scale_and_center w h size = IOS.scale_and_center w h size.
Proof. reflexivity. Qed.

(** C1, as stated, fails: with the quotient and the floor taken exactly,
    a 57 x 13 logo on a 72 pixel icon would get content height
    floor (57 / (57 / 13)) = 13; the script computes 12. *)
Lemma exact_floor_fails_57x13_at_72 :
  exists l,
    Android.scale_and_center 57 13 72 = Ok l /\
    13 < 57 /\
    new_width l = 4 * 72 / 5 /\
    new_width l * 13 / 57 = 13 /\
    new_height l = 12.
Proof.
  exists (mkLayout 57 12 7 30).
  split; [vm_compute; reflexivity|]. repeat split; reflexivity.
Qed.

(** C1, amended. For a logo and a target size below [2^25] the leading
    content dimension is exactly floor (4 * size / 5); the dependent one,
    computed in binary64, is the exact floor of the scaled side when that
    side is not an integer, and that integer or one less when it is. *)
Theorem content_dimensions (w h size : Z) :
  0 < w < 2 ^ 25 -> 0 < h < 2 ^ 25 -> 0 < size < 2 ^ 25 ->
  exists l,
    Android.scale_and_center w h size = Ok l /\
    (h < w ->
     new_width l = 4 * size / 5 /\
     new_width l * h / w - 1 <= new_height l <= new_width l * h / w /\
     ((new_width l * h) mod w <> 0 -> new_height l = new_width l * h / w)) /\
    (w <= h ->
     new_height l = 4 * size / 5 /\
     new_height l * w / h - 1 <= new_width l <= new_height l * w / h /\
     ((new_height l * w) mod h <> 0 -> new_width l = new_height l * w / h)).
Proof.
  intros Hw Hh Hs.
  destruct (scale_and_center_spec w h size) as (l & El & _ & _ & Hwide & Htall);
    try (change (2 ^ 50) with (2 ^ 25 * 2 ^ 25));
    try (change (2 ^ 49) with (2 ^ 24 * 2 ^ 25)); try lia.
  exists l. split; [assumption|].
  assert (Hm : 0 <= 4 * size / 5 < 2 ^ 25).
  { split; [apply Z.div_pos; lia|]. apply Z.div_lt_upper_bound; lia. }
  assert (P : 2 ^ 51 = 2 * (2 ^ 25 * 2 ^ 25)) by reflexivity.
  split.
  - intros Hlt. destruct (Hwide Hlt) as (E1 & _ & Hfl). rewrite E1.
    split; [reflexivity|]. apply Hfl. rewrite P. nia.
  - intros Hle. destruct (Htall Hle) as (E1 & _ & Hfl). rewrite E1.
    split; [reflexivity|]. apply Hfl. rewrite P. nia.
Qed.

Lemma content_dimensions_witness :
  exists l,
    Android.scale_and_center 57 13 72 = Ok l /\
    (13 < 57 ->
     new_width l = 4 * 72 / 5 /\
     new_width l * 13 / 57 - 1 <= new_height l <= new_width l * 13 / 57 /\
     ((new_width l * 13) mod 57 <> 0 -> new_height l = new_width l * 13 / 57)) /\
    (57 <= 13 ->
     new_height l = 4 * 72 / 5 /\
     new_height l * 57 / 13 - 1 <= new_width l <= new_height l * 57 / 13 /\
     ((new_height l * 57) mod 13 <> 0 -> new_width l = new_height l * 57 / 13)).
Proof. apply (content_dimensions 57 13 72); lia. Defined.

(** * The rendered icon *)

Section Render.

Variable resample : image -> Z -> Z -> Z -> Z -> pixel.
Variable blend : pixel -> pixel -> Z -> pixel.

Lemma new_square (size : Z) (c : pixel) :
  PIL.new (size, size) c =
  if size <? 0 then Raise ValueError
  else if PIL.INT_MAX <? size then Raise OverflowError
  else Ok (mkImage size size (fun _ _ => c)).
Proof.
  unfold PIL.new.
  destruct (size <? 0); [reflexivity|].
  destruct (PIL.INT_MAX <? size); reflexivity.
Qed.

Lemma resize_size (im r : image) (w h : Z) :
  PIL.resize resample im (w, h) = Ok r -> width r = w /\ height r = h.
Proof.
  unfold PIL.resize.
  destruct (Z.eqb_spec w (width im)) as [Ew|]; cbn [andb].
  - destruct (Z.eqb_spec h (height im)) as [Eh|].
    + intros [= <-]. auto.
    + destruct ((w <? 1) || (h <? 1)); [discriminate|].
      intros [= <-]. auto.
  - destruct ((w <? 1) || (h <? 1)); [discriminate|].
    intros [= <-]. auto.
Qed.

(** What a successful rendering went through. *)
Lemma render_icon_inv (logo : image) (size : Z) (icon : image) :
  Android.render_icon resample blend logo size = Ok icon ->
  0 <= size <= PIL.INT_MAX /\
  exists l resized,
    Android.scale_and_center (width logo) (height logo) size = Ok l /\
    PIL.resize resample logo (new_width l, new_height l) = Ok resized /\
    icon = PIL.paste blend
             (mkImage size size (fun _ _ => mkPixel 255 255 255 0))
             resized (off_x l, off_y l) resized.
Proof.
  unfold Android.render_icon. rewrite new_square.
  destruct (Z.ltb_spec size 0); [discriminate|].
  destruct (Z.ltb_spec PIL.INT_MAX size); [discriminate|].
  cbn [bind].
  destruct (Android.scale_and_center (width logo) (height logo) size)
    as [l | e]; [|discriminate].
  cbn [bind].
  destruct (PIL.resize resample logo (new_width l, new_height l))
    as [resized | e] eqn:Er; [|discriminate].
  cbn [bind]. intros [= <-].
  split; [lia|]. exists l, resized. auto.
Qed.

(** C4. The icon is a [size] x [size] square, and neither content
    dimension exceeds floor (4 * size / 5). *)
Theorem icon_square_content_bounded (logo : image) (size : Z) :
  0 < width logo <= PIL.INT_MAX -> 0 < height logo <= PIL.INT_MAX ->
  0 < size <= PIL.INT_MAX ->
  (forall icon, Android.render_icon resample blend logo size = Ok icon ->
                width icon = size /\ height icon = size) /\
  exists l,
    Android.scale_and_center (width logo) (height logo) size = Ok l /\
    new_width l <= 4 * size / 5 /\ new_height l <= 4 * size / 5.
Proof.
  intros Hw Hh Hs. pose proof int_max_lt_pow49 as B.
  split.
  - intros icon Hr.
    destruct (render_icon_inv _ _ _ Hr) as (_ & l & resized & _ & _ & ->).
    split; reflexivity.
  - destruct (scale_and_center_spec (width logo) (height logo) size)
      as (l & El & _ & _ & Hwide & Htall);
      try (change (2 ^ 50) with (2 * 2 ^ 49)); try lia.
    exists l. split; [assumption|].
    destruct (Z_lt_le_dec (height logo) (width logo)) as [Hlt | Hle].
    + destruct (Hwide Hlt) as (E1 & Hb & _). lia.
    + destruct (Htall Hle) as (E1 & Hb & _). lia.
Qed.

(** C3. Every pixel of the icon outside the pasted content rectangle
    is fully transparent. *)
Theorem outside_content_transparent (logo : image) (size : Z) (icon : image) :
  0 < width logo -> 0 < height logo -> 0 < size ->
  Android.render_icon resample blend logo size = Ok icon ->
  exists l,
    Android.scale_and_center (width logo) (height logo) size = Ok l /\
    forall i j,
      ~ (off_x l <= i < off_x l + new_width l /\
         off_y l <= j < off_y l + new_height l) ->
      alpha (pixel_at icon i j) = 0.
Proof.
  intros _ _ _ Hr.
  destruct (render_icon_inv _ _ _ Hr) as (_ & l & resized & El & Er & ->).
  exists l. split; [assumption|].
  destruct (resize_size _ _ _ _ Er) as [Ew Eh].
  intros i j Hout. unfold PIL.paste. cbn [pixel_at]. rewrite Ew, Eh.
  destruct (Z.leb_spec (off_x l) i); cbn [andb]; [|reflexivity].
  destruct (Z.ltb_spec i (off_x l + new_width l)); cbn [andb]; [|reflexivity].
  destruct (Z.leb_spec (off_y l) j); cbn [andb]; [|reflexivity].
  destruct (Z.ltb_spec j (off_y l + new_height l)); [|reflexivity].
  exfalso. apply Hout. lia.
Qed.

End Render.

(** C5. The centring offsets are the floors of half the free space; the
    pasted rectangle stays inside the canvas and is centred within one
    pixel. *)
Theorem centering_offsets (w h size : Z) :
  0 < w <= PIL.INT_MAX -> 0 < h <= PIL.INT_MAX -> 0 < size <= PIL.INT_MAX ->
  exists l,
    Android.scale_and_center w h size = Ok l /\
    off_x l = (size - new_width l) / 2 /\
    off_y l = (size - new_height l) / 2 /\
    off_x l + new_width l <= size /\
    off_y l + new_height l <= size /\
    Z.abs (off_x l - (size - new_width l - off_x l)) <= 1 /\
    Z.abs (off_y l - (size - new_height l - off_y l)) <= 1.
Proof.
  intros Hw Hh Hs. pose proof int_max_lt_pow49 as B.
  destruct (scale_and_center_spec w h size)
    as (l & El & Ex & Ey & Hwide & Htall);
    try (change (2 ^ 50) with (2 * 2 ^ 49)); try lia.
  exists l. split; [assumption|]. split; [assumption|]. split; [assumption|].
  assert (Hb : 0 <= new_width l <= 4 * size / 5 /\ 0 <= new_height l <= 4 * size / 5).
  { destruct (Z_lt_le_dec h w) as [Hlt | Hle].
    - destruct (Hwide Hlt) as (E1 & Hb & _). lia.
    - destruct (Htall Hle) as (E1 & Hb & _). lia. }
  assert (4 * size / 5 <= size) by (apply Z.div_le_upper_bound; lia).
  destruct Hb as [Hbw Hbh].
  set (a := size - new_width l) in *. set (b := size - new_height l) in *.
  assert (Ha : 0 <= a) by (unfold a; lia).
  assert (Hb : 0 <= b) by (unfold b; lia).
  pose proof (Z_div_mod_eq_full a 2) as Ea. pose proof (Z.mod_pos_bound a 2) as Ma.
  pose proof (Z_div_mod_eq_full b 2) as Eb. pose proof (Z.mod_pos_bound b 2) as Mb.
  rewrite Ex, Ey.
  replace (size - new_width l - a / 2) with (a - a / 2) by (unfold a; lia).
  replace (size - new_height l - b / 2) with (b - b / 2) by (unfold b; lia).
  repeat split; try (unfold a, b in *; lia); apply Z.abs_le; lia.
Qed.

(** * When rendering raises *)

Section Outcome.

Variable resample : image -> Z -> Z -> Z -> Z -> pixel.
Variable blend : pixel -> pixel -> Z -> pixel.



End Outcome.


(** * The drawn emblem *)


(** * The files of one Android run *)

Section AndroidRun.

Variable resample : image -> Z -> Z -> Z -> Z -> pixel.
Variable blend : pixel -> pixel -> Z -> pixel.

Lemma for_sizes_ok (logo : image) (entries : list (string * Z)) :
  forall fs fs' : filesystem,
    Android.for_sizes resample blend entries logo fs = (fs', Ok tt) ->
    (forall p, p ∉ Android.paths entries -> fs' !! p = fs !! p) /\
    dom fs' = dom fs ∪ list_to_set (Android.paths entries) /\
    (NoDup (Android.paths entries) ->
     forall folder size, (folder, size) ∈ entries ->
       exists icon, fs' !! Android.icon_path folder = Some icon /\
                    Android.render_icon resample blend logo size = Ok icon).
Proof.
  induction entries as [| [folder0 size0] rest IH]; intros fs fs' Hrun.
  - cbn in Hrun. injection Hrun as <-.
    split; [reflexivity|].
    split; [cbn [Android.paths map list_to_set]; rewrite union_empty_r_L; reflexivity|].
    intros _ folder size Hin. inversion Hin.
  - cbn [Android.for_sizes] in Hrun.
    destruct (Android.render_icon resample blend logo size0) as [icon0 | e] eqn:Er;
      [|discriminate].
    destruct (IH _ _ Hrun) as (Hother & Hdom & Hin). unfold save in *.
    cbn [Android.paths map fst] in *. fold (Android.paths rest) in *.
    split; [|split].
    + intros p Hp. apply not_elem_of_cons in Hp as [Hne Hp].
      rewrite Hother by assumption.
      apply lookup_insert_ne. congruence.
    + rewrite Hdom, dom_insert_L, list_to_set_cons.
      rewrite (comm_L (∪) _ (dom fs)), (assoc_L (∪)). reflexivity.
    + intros Hnd folder size Hmem.
      apply NoDup_cons in Hnd as [Hfresh Hnd].
      apply elem_of_cons in Hmem as [[= -> ->] | Hmem].
      * exists icon0. split; [|assumption].
        rewrite Hother by assumption. apply lookup_insert_eq.
      * apply Hin; assumption.
Qed.

(** C8. A completed run of the Android generator leaves exactly five
    files, one [ic_launcher.png] under each density directory, each
    holding a square icon of that density's pixel size; every other
    path is untouched. *)
Theorem android_run_files (logo : image) (fs fs' : filesystem) :
  Android.create_app_icons_from_logo resample blend logo fs = (fs', Ok tt) ->
  Android.sizes =
    [ ("mipmap-mdpi", 48); ("mipmap-hdpi", 72); ("mipmap-xhdpi", 96);
      ("mipmap-xxhdpi", 144); ("mipmap-xxxhdpi", 192) ]%string /\
  Android.paths Android.sizes =
    [ "/Users/admin/development/BMS App/android/app/src/main/res/mipmap-mdpi/ic_launcher.png";
      "/Users/admin/development/BMS App/android/app/src/main/res/mipmap-hdpi/ic_launcher.png";
      "/Users/admin/development/BMS App/android/app/src/main/res/mipmap-xhdpi/ic_launcher.png";
      "/Users/admin/development/BMS App/android/app/src/main/res/mipmap-xxhdpi/ic_launcher.png";
      "/Users/admin/development/BMS App/android/app/src/main/res/mipmap-xxxhdpi/ic_launcher.png"
    ]%string /\
  NoDup (Android.paths Android.sizes) /\
  (forall folder size, (folder, size) ∈ Android.sizes ->
     exists icon, fs' !! Android.icon_path folder = Some icon /\
                  width icon = size /\ height icon = size) /\
  (forall p, p ∉ Android.paths Android.sizes -> fs' !! p = fs !! p) /\
  dom fs' = dom fs ∪ list_to_set (Android.paths Android.sizes).
Proof.
  intros Hrun. unfold Android.create_app_icons_from_logo in Hrun.
  destruct (for_sizes_ok logo Android.sizes fs fs' Hrun) as (Hother & Hdom & Hin).
  assert (Hnd : NoDup (Android.paths Android.sizes)).
  { apply (bool_decide_unpack _). vm_compute. exact I. }
  split; [reflexivity|]. split; [reflexivity|]. split; [assumption|].
  split; [|split; assumption].
  intros folder size Hmem.
  destruct (Hin Hnd folder size Hmem) as (icon & Hl & Hr).
  exists icon. split; [assumption|].
  destruct (render_icon_inv _ _ _ _ _ Hr) as (_ & l & resized & _ & _ & ->).
  split; reflexivity.
Qed.

End AndroidRun.

(** * Worked instances *)

Lemma icon_square_content_bounded_witness :
  0 < width (Sample.solid 200 100) <= PIL.INT_MAX /\
  0 < height (Sample.solid 200 100) <= PIL.INT_MAX /\
  0 < 96 <= PIL.INT_MAX /\
  (forall icon,
     Android.render_icon Sample.nearest Sample.over (Sample.solid 200 100) 96 = Ok icon ->
     width icon = 96 /\ height icon = 96) /\
  exists l,
    Android.scale_and_center (width (Sample.solid 200 100))
      (height (Sample.solid 200 100)) 96 = Ok l /\
    new_width l <= 4 * 96 / 5 /\ new_height l <= 4 * 96 / 5.
Proof.
  assert (H1 : 0 < width (Sample.solid 200 100) <= PIL.INT_MAX) by (vm_compute; split; [reflexivity | discriminate]).
  assert (H2 : 0 < height (Sample.solid 200 100) <= PIL.INT_MAX) by (vm_compute; split; [reflexivity | discriminate]).
  assert (H3 : 0 < 96 <= PIL.INT_MAX) by (vm_compute; split; [reflexivity | discriminate]).
  split; [exact H1|]. split; [exact H2|]. split; [exact H3|].
  exact (icon_square_content_bounded Sample.nearest Sample.over
           (Sample.solid 200 100) 96 H1 H2 H3).
Defined.

Lemma outside_content_transparent_witness :
  exists icon,
    Android.render_icon Sample.nearest Sample.over (Sample.solid 200 100) 96 = Ok icon /\
    exists l,
      Android.scale_and_center (width (Sample.solid 200 100))
        (height (Sample.solid 200 100)) 96 = Ok l /\
      forall i j,
        ~ (off_x l <= i < off_x l + new_width l /\
           off_y l <= j < off_y l + new_height l) ->
        alpha (pixel_at icon i j) = 0.
Proof.
  destruct (Android.render_icon Sample.nearest Sample.over (Sample.solid 200 100) 96)
    as [icon | e] eqn:E; [|vm_compute in E; discriminate].
  exists icon. split; [reflexivity|].
  apply (outside_content_transparent Sample.nearest Sample.over
           (Sample.solid 200 100) 96 icon); try reflexivity. exact E.
Defined.

Lemma centering_offsets_witness :
  exists l,
    Android.scale_and_center 200 100 96 = Ok l /\
    off_x l = (96 - new_width l) / 2 /\
    off_y l = (96 - new_height l) / 2 /\
    off_x l + new_width l <= 96 /\
    off_y l + new_height l <= 96 /\
    Z.abs (off_x l - (96 - new_width l - off_x l)) <= 1 /\
    Z.abs (off_y l - (96 - new_height l - off_y l)) <= 1.
Proof.
  apply (centering_offsets 200 100 96);
    vm_compute; (split; [reflexivity | discriminate]).
Defined.


Lemma android_run_files_witness :
  exists fs' : filesystem,
    Android.create_app_icons_from_logo Sample.nearest Sample.over
      (Sample.solid 200 100) ∅ = (fs', Ok tt) /\
    NoDup (Android.paths Android.sizes) /\
    (forall folder size, (folder, size) ∈ Android.sizes ->
       exists icon, fs' !! Android.icon_path folder = Some icon /\
                    width icon = size /\ height icon = size) /\
    (forall p, p ∉ Android.paths Android.sizes -> fs' !! p = (∅ : filesystem) !! p) /\
    dom fs' = dom (∅ : filesystem) ∪ list_to_set (Android.paths Android.sizes).
Proof.
  destruct (Android.create_app_icons_from_logo Sample.nearest Sample.over
              (Sample.solid 200 100) ∅) as [fs' r] eqn:E.
  assert (Hr : r = Ok tt).
  { apply (f_equal snd) in E. cbn [snd] in E. rewrite <- E.
    vm_compute. reflexivity. }
  subst r. exists fs'. split; [reflexivity|].
  apply (android_run_files Sample.nearest Sample.over (Sample.solid 200 100) ∅ fs' E).
Defined.

(** * Further properties of the scripts *)

(** ** Which logos fit *)

Section Fit.

Variable resample : image -> Z -> Z -> Z -> Z -> pixel.
Variable blend : pixel -> pixel -> Z -> pixel.

(** For positive dimensions the rendering is decided by the two content
    dimensions alone. *)
Lemma render_icon_positive (logo : image) (size : Z) :
  0 < width logo <= PIL.INT_MAX -> 0 < height logo <= PIL.INT_MAX ->
  0 < size <= PIL.INT_MAX ->
  exists l,
    Android.scale_and_center (width logo) (height logo) size = Ok l /\
    (1 <= new_width l /\ 1 <= new_height l ->
     exists icon, Android.render_icon resample blend logo size = Ok icon) /\
    (new_width l < 1 \/ new_height l < 1 ->
     Android.render_icon resample blend logo size = Raise ValueError).
Proof.
  intros Hw Hh Hs. pose proof int_max_lt_pow49 as B.
  destruct (scale_and_center_spec (width logo) (height logo) size)
    as (l & El & _); try (change (2 ^ 50) with (2 * 2 ^ 49)); try lia.
  exists l. split; [assumption|].
  unfold Android.render_icon. rewrite new_square.
  destruct (Z.ltb_spec size 0); [lia|].
  destruct (Z.ltb_spec PIL.INT_MAX size); [lia|].
  cbn [bind]. rewrite El. cbn [bind]. unfold PIL.resize.
  split.
  - intros [H1 H2].
    destruct ((new_width l =? width logo) && (new_height l =? height logo));
      [eexists; reflexivity|].
    destruct (Z.ltb_spec (new_width l) 1); [lia|].
    destruct (Z.ltb_spec (new_height l) 1); [lia|].
    eexists; reflexivity.
  - intros Hz.
    destruct (Z.eqb_spec (new_width l) (width logo)); cbn [andb].
    + destruct (Z.eqb_spec (new_height l) (height logo)); [lia|].
      destruct (Z.ltb_spec (new_width l) 1); [reflexivity|].
      destruct (Z.ltb_spec (new_height l) 1); [reflexivity | lia].
    + destruct (Z.ltb_spec (new_width l) 1); [reflexivity|].
      destruct (Z.ltb_spec (new_height l) 1); [reflexivity | lia].
Qed.

Lemma div_between (X Y : Z) :
  0 < Y -> Y < X -> 1 <= X / Y /\ (X / Y = 1 -> X mod Y <> 0).
Proof.
  intros HY HX.
  pose proof (Z_div_mod_eq_full X Y) as E.
  pose proof (Z.mod_pos_bound X Y HY) as Hm.
  assert (H1 : 1 <= X / Y) by (apply Z.div_le_lower_bound; lia).
  split; [assumption|]. intros E1 E0. rewrite E1, E0 in E. lia.
Qed.

(** The content dimensions of a logo at a size below [2^20], against
    the exact comparison of the short side scaled by floor (4 * size / 5)
    with the long side. *)
Lemma content_dims_threshold (w h size : Z) :
  0 < w <= PIL.INT_MAX -> 0 < h <= PIL.INT_MAX -> 0 < size < 2 ^ 20 ->
  exists l,
    Android.scale_and_center w h size = Ok l /\
    (Z.max w h < 4 * size / 5 * Z.min w h ->
     1 <= new_width l /\ 1 <= new_height l) /\
    (4 * size / 5 * Z.min w h < Z.max w h ->
     new_width l < 1 \/ new_height l < 1).
Proof.
  intros Hw Hh Hs.
  assert (B : PIL.INT_MAX < 2 ^ 31) by reflexivity.
  destruct (scale_and_center_spec w h size)
    as (l & El & _ & _ & Hwide & Htall);
    try (change (2 ^ 50) with (2 ^ 19 * 2 ^ 31));
    try (change (2 ^ 49) with (2 ^ 29 * 2 ^ 20)); try lia.
  exists l. split; [assumption|].
  set (m := 4 * size / 5) in *.
  assert (Hm : 0 <= m < 2 ^ 20).
  { unfold m. split; [apply Z.div_pos; lia|]. apply Z.div_lt_upper_bound; lia. }
  assert (P : 2 ^ 51 = 2 ^ 20 * 2 ^ 31) by reflexivity.
  destruct (Z_lt_le_dec h w) as [Hlt | Hle].
  - destruct (Hwide Hlt) as (E1 & Hb & Hfl).
    destruct Hfl as [Hk Hex]; [rewrite P; nia|].
    rewrite Z.max_l, Z.min_r by lia.
    split.
    + intros Hfit. destruct (div_between (m * h) w) as [K1 K2]; [lia | lia |].
      assert (1 <= m) by nia.
      split; [lia|].
      destruct (Z.eq_dec (m * h / w) 1) as [K | K].
      * rewrite Hex by (apply K2; assumption). lia.
      * lia.
    + intros Hthin. right. rewrite Z.div_small in Hk by nia. lia.
  - destruct (Htall Hle) as (E1 & Hb & Hfl).
    destruct Hfl as [Hk Hex]; [rewrite P; nia|].
    rewrite Z.max_r, Z.min_l by lia.
    split.
    + intros Hfit. destruct (div_between (m * w) h) as [K1 K2]; [lia | lia |].
      assert (1 <= m) by nia.
      split; [|lia].
      destruct (Z.eq_dec (m * w / h) 1) as [K | K].
      * rewrite Hex by (apply K2; assumption). lia.
      * lia.
    + intros Hthin. left. rewrite Z.div_small in Hk by nia. lia.
Qed.

(** X1. A logo renders when its long side is shorter than its short
    side scaled by floor (4 * size / 5), and the resize refuses it when
    the long side is longer than that. *)
Theorem render_threshold (logo : image) (size : Z) :
  0 < width logo <= PIL.INT_MAX -> 0 < height logo <= PIL.INT_MAX ->
  0 < size < 2 ^ 20 ->
  (Z.max (width logo) (height logo)
   < 4 * size / 5 * Z.min (width logo) (height logo) ->
   exists icon, Android.render_icon resample blend logo size = Ok icon) /\
  (4 * size / 5 * Z.min (width logo) (height logo)
   < Z.max (width logo) (height logo) ->
   Android.render_icon resample blend logo size = Raise ValueError).
Proof.
  intros Hw Hh Hs.
  assert (Hs' : 0 < size <= PIL.INT_MAX).
  { split; [lia|]. change PIL.INT_MAX with (2 ^ 31 - 1).
    change (2 ^ 31) with (2 ^ 11 * 2 ^ 20). lia. }
  destruct (content_dims_threshold _ _ _ Hw Hh Hs) as (l & El & Hfit & Hthin).
  destruct (render_icon_positive logo size Hw Hh Hs') as (l' & El' & Hok & Hbad).
  rewrite El in El'. injection El' as <-.
  split; intros H; [apply Hok, Hfit, H | apply Hbad, Hthin, H].
Qed.

End Fit.

(** ** Runs of the generators *)

Section Runs.

Variable resample : image -> Z -> Z -> Z -> Z -> pixel.
Variable blend : pixel -> pixel -> Z -> pixel.

Lemma size_below_int_max (s : Z) : 0 < s < 2 ^ 20 -> 0 < s <= PIL.INT_MAX.
Proof.
  intros Hs. split; [lia|]. change PIL.INT_MAX with (2 ^ 31 - 1).
  change (2 ^ 31) with (2 ^ 11 * 2 ^ 20). lia.
Qed.

Lemma fits_larger_aux (logo : image) (s s' : Z) (icon : image) :
  0 < width logo <= PIL.INT_MAX -> 0 < height logo <= PIL.INT_MAX ->
  0 < s < 2 ^ 20 -> 0 < s' < 2 ^ 20 ->
  4 * s / 5 < 4 * s' / 5 ->
  Android.render_icon resample blend logo s = Ok icon ->
  exists icon', Android.render_icon resample blend logo s' = Ok icon'.
Proof.
  intros Hw Hh Hs Hs' Hm Hr.
  destruct (content_dims_threshold _ _ _ Hw Hh Hs) as (l & El & _ & Hthin).
  destruct (render_icon_positive resample blend logo s Hw Hh (size_below_int_max _ Hs))
    as (l0 & El0 & _ & Hbad).
  rewrite El in El0. injection El0 as <-.
  destruct (content_dims_threshold _ _ _ Hw Hh Hs') as (l' & El' & Hfit & _).
  destruct (render_icon_positive resample blend logo s' Hw Hh (size_below_int_max _ Hs'))
    as (l0 & El0 & Hok & _).
  rewrite El' in El0. injection El0 as <-.
  apply Hok, Hfit.
  set (lo := Z.min (width logo) (height logo)) in *.
  set (hi := Z.max (width logo) (height logo)) in *.
  assert (Hlo : 1 <= lo) by (unfold lo; lia).
  destruct (Z_lt_le_dec (4 * s / 5 * lo) hi) as [Hlt | Hge].
  - rewrite (Hbad (Hthin Hlt)) in Hr. discriminate.
  - nia.
Qed.

(** X2. A logo that renders at one size renders at every size whose
    content side floor (4 * size / 5) is larger. *)
Theorem renders_at_larger (logo : image) (s s' : Z) (icon : image) :
  0 < width logo <= PIL.INT_MAX -> 0 < height logo <= PIL.INT_MAX ->
  0 < s < 2 ^ 20 -> 0 < s' < 2 ^ 20 ->
  4 * s / 5 < 4 * s' / 5 ->
  Android.render_icon resample blend logo s = Ok icon ->
  exists icon', Android.render_icon resample blend logo s' = Ok icon'.
Proof. exact (fits_larger_aux logo s s' icon). Qed.


Lemma for_sizes_all_ok (logo : image) (entries : list (string * Z)) :
  (forall folder size, (folder, size) ∈ entries ->
     exists icon, Android.render_icon resample blend logo size = Ok icon) ->
  forall fs : filesystem,
    exists fs', Android.for_sizes resample blend entries logo fs = (fs', Ok tt).
Proof.
  induction entries as [| [folder0 size0] rest IH]; intros Hall fs.
  - exists fs. reflexivity.
  - cbn [Android.for_sizes].
    destruct (Hall folder0 size0) as [icon Hr]; [apply list_elem_of_here|].
    rewrite Hr. apply IH. intros folder size Hin.
    apply (Hall folder size). apply list_elem_of_further. exact Hin.
Qed.


(** The icons of a completed run do not depend on the files that were
    there before. *)
Lemma for_sizes_again (logo : image) (entries : list (string * Z))
      (fs fs' : filesystem) :
  NoDup (Android.paths entries) ->
  Android.for_sizes resample blend entries logo fs = (fs', Ok tt) ->
  Android.for_sizes resample blend entries logo fs' = (fs', Ok tt).
Proof.
  intros Hnd Hrun.
  destruct (for_sizes_ok resample blend logo entries fs fs' Hrun)
    as (Hother & _ & Hin).
  destruct (for_sizes_all_ok logo entries) with (fs := fs') as [fs'' Hrun'].
  { intros folder size Hmem.
    destruct (Hin Hnd folder size Hmem) as (icon & _ & Hr). exists icon. exact Hr. }
  rewrite Hrun'. f_equal.
  destruct (for_sizes_ok resample blend logo entries fs' fs'' Hrun')
    as (Hother' & _ & Hin').
  apply map_eq. intros p.
  destruct (decide (p ∈ Android.paths entries)) as [Hp | Hp].
  - unfold Android.paths in Hp. apply list_elem_of_In, in_map_iff in Hp.
    destruct Hp as ([folder size] & <- & Hmem). apply list_elem_of_In in Hmem.
    cbn [fst].
    destruct (Hin Hnd folder size Hmem) as (icon & Hl & Hr).
    destruct (Hin' Hnd folder size Hmem) as (icon' & Hl' & Hr').
    rewrite Hl, Hl'. congruence.
  - apply Hother'. exact Hp.
Qed.

(** X4. Running the Android generator again on its own output changes
    nothing. *)
Theorem android_run_idempotent (logo : image) (fs fs' : filesystem) :
  Android.create_app_icons_from_logo resample blend logo fs = (fs', Ok tt) ->
  Android.create_app_icons_from_logo resample blend logo fs' = (fs', Ok tt).
Proof.
  apply for_sizes_again.
  apply (bool_decide_unpack _). vm_compute. exact I.
Qed.

End Runs.

(** ** The iOS run *)

Section IOSRun.

Variable resample : image -> Z -> Z -> Z -> Z -> pixel.
Variable blend : pixel -> pixel -> Z -> pixel.

Lemma ios_render_icon (logo : image) (size : Z) :
  IOS.render_icon resample blend logo size
  = Android.render_icon resample blend logo size.
Proof. reflexivity. Qed.

Lemma ios_for_sizes_ok (logo : image) (entries : list (string * Z)) :
  forall fs fs' : filesystem,
    IOS.for_sizes resample blend entries logo fs = (fs', Ok tt) ->
    (forall p, p ∉ IOS.paths entries -> fs' !! p = fs !! p) /\
    dom fs' = dom fs ∪ list_to_set (IOS.paths entries) /\
    (NoDup (IOS.paths entries) ->
     forall filename size, (filename, size) ∈ entries ->
       exists icon, fs' !! path_join IOS.base_path filename = Some icon /\
                    IOS.render_icon resample blend logo size = Ok icon).
Proof.
  induction entries as [| [filename0 size0] rest IH]; intros fs fs' Hrun.
  - cbn in Hrun. injection Hrun as <-.
    split; [reflexivity|].
    split; [cbn [IOS.paths map list_to_set]; rewrite union_empty_r_L; reflexivity|].
    intros _ filename size Hin. inversion Hin.
  - cbn [IOS.for_sizes] in Hrun.
    destruct (IOS.render_icon resample blend logo size0) as [icon0 | e] eqn:Er;
      [|discriminate].
    destruct (IH _ _ Hrun) as (Hother & Hdom & Hin). unfold save in *.
    cbn [IOS.paths map fst] in *. fold (IOS.paths rest) in *.
    split; [|split].
    + intros p Hp. apply not_elem_of_cons in Hp as [Hne Hp].
      rewrite Hother by assumption.
      apply lookup_insert_ne. congruence.
    + rewrite Hdom, dom_insert_L, list_to_set_cons.
      rewrite (comm_L (∪) _ (dom fs)), (assoc_L (∪)). reflexivity.
    + intros Hnd filename size Hmem.
      apply NoDup_cons in Hnd as [Hfresh Hnd].
      apply elem_of_cons in Hmem as [[= -> ->] | Hmem].
      * exists icon0. split; [|assumption].
        rewrite Hother by assumption. apply lookup_insert_eq.
      * apply Hin; assumption.
Qed.


Lemma ios_paths_nodup : NoDup (IOS.paths IOS.ios_sizes).
Proof. apply (bool_decide_unpack _). vm_compute. exact I. Qed.

(** X5. A completed run of the iOS generator leaves fifteen distinct
    files in the icon set directory, each a square icon of its table
    size, and touches no other path; the two names listed with size 40,
    and the two listed with size 120, hold the same icon. *)
Theorem ios_run_files (logo : image) (fs fs' : filesystem) :
  IOS.create_ios_icons_from_logo resample blend logo fs = (fs', Ok tt) ->
  NoDup (IOS.paths IOS.ios_sizes) /\
  length (IOS.paths IOS.ios_sizes) = 15%nat /\
  (forall filename size, (filename, size) ∈ IOS.ios_sizes ->
     exists icon, fs' !! path_join IOS.base_path filename = Some icon /\
                  width icon = size /\ height icon = size) /\
  (forall p, p ∉ IOS.paths IOS.ios_sizes -> fs' !! p = fs !! p) /\
  dom fs' = dom fs ∪ list_to_set (IOS.paths IOS.ios_sizes) /\
  fs' !! path_join IOS.base_path "Icon-App-20x20@2x.png"
  = fs' !! path_join IOS.base_path "Icon-App-40x40@1x.png" /\
  fs' !! path_join IOS.base_path "Icon-App-40x40@3x.png"
  = fs' !! path_join IOS.base_path "Icon-App-60x60@2x.png".
Proof.
  intros Hrun. unfold IOS.create_ios_icons_from_logo in Hrun.
  destruct (ios_for_sizes_ok logo IOS.ios_sizes fs fs' Hrun) as (Hother & Hdom & Hin).
  pose proof ios_paths_nodup as Hnd.
  assert (Hsame : forall f1 f2 size,
            (f1, size) ∈ IOS.ios_sizes -> (f2, size) ∈ IOS.ios_sizes ->
            fs' !! path_join IOS.base_path f1 = fs' !! path_join IOS.base_path f2).
  { intros f1 f2 size H1 H2.
    destruct (Hin Hnd f1 size H1) as (i1 & L1 & R1).
    destruct (Hin Hnd f2 size H2) as (i2 & L2 & R2).
    rewrite L1, L2. congruence. }
  split; [assumption|]. split; [reflexivity|].
  split; [|split; [assumption|split; [assumption|split]]].
  - intros filename size Hmem.
    destruct (Hin Hnd filename size Hmem) as (icon & Hl & Hr).
    exists icon. split; [assumption|].
    rewrite ios_render_icon in Hr.
    destruct (render_icon_inv _ _ _ _ _ Hr) as (_ & l & resized & _ & _ & ->).
    split; reflexivity.
  - apply (Hsame _ _ 40); apply list_elem_of_In; cbn; tauto.
  - apply (Hsame _ _ 120); apply list_elem_of_In; cbn; tauto.
Qed.


End IOSRun.

(** ** More on the content rectangle *)

(** X7. The content keeps the logo's aspect ratio up to the rounding of
    the dependent side: cross-multiplied, the sides differ by less than
    two pixels of the dependent side, and the content is never stretched
    along it. *)
Theorem aspect_ratio_preserved (w h size : Z) :
  0 < w < 2 ^ 25 -> 0 < h < 2 ^ 25 -> 0 < size < 2 ^ 25 ->
  exists l,
    Android.scale_and_center w h size = Ok l /\
    (h < w -> 0 <= new_width l * h - new_height l * w < 2 * w) /\
    (w <= h -> 0 <= new_height l * w - new_width l * h < 2 * h).
Proof.
  intros Hw Hh Hs.
  destruct (scale_and_center_spec w h size) as (l & El & _ & _ & Hwide & Htall);
    try (change (2 ^ 50) with (2 ^ 25 * 2 ^ 25));
    try (change (2 ^ 49) with (2 ^ 24 * 2 ^ 25)); try lia.
  exists l. split; [assumption|].
  set (m := 4 * size / 5) in *.
  assert (Hm : 0 <= m < 2 ^ 25).
  { unfold m. split; [apply Z.div_pos; lia|]. apply Z.div_lt_upper_bound; lia. }
  assert (P : 2 ^ 51 = 2 * (2 ^ 25 * 2 ^ 25)) by reflexivity.
  split.
  - intros Hlt. destruct (Hwide Hlt) as (E1 & _ & Hfl).
    destruct Hfl as [Hk _]; [rewrite P; nia|]. rewrite E1.
    pose proof (Z_div_mod_eq_full (m * h) w) as E.
    pose proof (Z.mod_pos_bound (m * h) w ltac:(lia)) as Hr.
    nia.
  - intros Hle. destruct (Htall Hle) as (E1 & _ & Hfl).
    destruct Hfl as [Hk _]; [rewrite P; nia|]. rewrite E1.
    pose proof (Z_div_mod_eq_full (m * w) h) as E.
    pose proof (Z.mod_pos_bound (m * w) h ltac:(lia)) as Hr.
    nia.
Qed.

Lemma aspect_ratio_preserved_witness :
  exists l,
    Android.scale_and_center 57 13 72 = Ok l /\
    (13 < 57 -> 0 <= new_width l * 13 - new_height l * 57 < 2 * 57) /\
    (57 <= 13 -> 0 <= new_height l * 57 - new_width l * 13 < 2 * 13).
Proof. apply (aspect_ratio_preserved 57 13 72); lia. Defined.

(** X8. A square logo gets square content of side floor (4 * size / 5),
    with equal offsets: the rounding costs nothing when the aspect ratio
    is exactly 1. *)
Theorem square_logo_layout (w size : Z) :
  0 < w <= PIL.INT_MAX -> 0 < size <= PIL.INT_MAX ->
  Android.scale_and_center w w size
  = Ok (mkLayout (4 * size / 5) (4 * size / 5)
          ((size - 4 * size / 5) / 2) ((size - 4 * size / 5) / 2)).
Proof.
  intros Hw Hs. pose proof int_max_lt_pow49 as B.
  assert (Hw50 : 0 < w < 2 ^ 50) by (change (2 ^ 50) with (2 * 2 ^ 49); lia).
  destruct (aspect_spec w w Hw50 Hw50) as (Ma & ta & Ea & HMa & Hta & Hn & Hgt).
  destruct (primary_dim size ltac:(lia)) as (tf & Et & Ei).
  set (m := 4 * size / 5) in *.
  assert (Hm : 0 <= m < 2 ^ 49).
  { unfold m. split; [apply Z.div_pos; lia|]. apply Z.div_lt_upper_bound; lia. }
  assert (PTa : 0 < 2 ^ ta) by (apply Z.pow_pos_nonneg; lia).
  assert (EMa : Ma = 2 ^ ta).
  { replace (Ma * w - w * 2 ^ ta) with ((Ma - 2 ^ ta) * w) in Hn by ring.
    rewrite Z.abs_mul, (Z.abs_eq w) in Hn by lia. nia. }
  unfold Android.scale_and_center. rewrite Ea. cbn [bind].
  destruct (Py.float_gt_one (fl Ma ta)) eqn:Eg.
  { assert (w < w) by (apply Hgt; reflexivity). lia. }
  rewrite Et. cbn [bind]. rewrite Ei. cbn [bind].
  assert (Ew : exists p, Py.int_mul_float m (fl Ma ta) = Ok p /\
                         Py.int_of_float p = Ok m).
  { destruct (Z.eq_dec m 0) as [E0 | Hm0].
    - rewrite E0. exists (S754_zero false). split; reflexivity.
    - destruct (float_of_int_fl m) as (Mm & tm & E & HMm & Htm & EMm); [lia|].
      assert (Hta52 : 52 <= ta).
      { destruct (Z_le_gt_dec 52 ta) as [|G]; [assumption|]. exfalso.
        assert (2 ^ ta <= 2 ^ 51) by (apply Z.pow_le_mono_r; lia).
        change (2 ^ 52) with (2 * 2 ^ 51) in *. lia. }
      destruct (float_mul_spec Mm tm Ma ta HMm HMa ltac:(lia))
        as (M & t & Ep & Ht & HM & Hq).
      exists (fl M t). unfold Py.int_mul_float. rewrite E. cbn [bind]. rewrite Ep.
      split; [reflexivity|]. rewrite int_of_float_fl by lia. f_equal.
      assert (PTm : 0 < 2 ^ tm) by (apply Z.pow_pos_nonneg; lia).
      assert (PT : 0 < 2 ^ t) by (apply Z.pow_pos_nonneg; lia).
      rewrite Z.pow_add_r in Hq by lia. rewrite EMm, EMa in Hq.
      set (Ta := 2 ^ ta) in *. set (Tm := 2 ^ tm) in *. set (T := 2 ^ t) in *.
      replace (M * (Tm * Ta) - m * Tm * Ta * T) with ((M - m * T) * (Tm * Ta)) in Hq by ring.
      assert (PD : 0 < Tm * Ta) by (apply Z.mul_pos_pos; lia).
      rewrite Z.abs_mul, (Z.abs_eq (Tm * Ta)) in Hq by lia.
      assert (EM : M = m * T) by nia.
      rewrite EM. apply Z.div_mul. lia. }
  destruct Ew as (p & Ep & Eip). rewrite Ep. cbn [bind]. rewrite Eip. cbn [bind].
  reflexivity.
Qed.

Lemma square_logo_layout_witness :
  Android.scale_and_center 512 512 1024
  = Ok (mkLayout (4 * 1024 / 5) (4 * 1024 / 5)
          ((1024 - 4 * 1024 / 5) / 2) ((1024 - 4 * 1024 / 5) / 2)).
Proof.
  apply (square_logo_layout 512 1024); vm_compute; (split; [reflexivity | discriminate]).
Defined.

(** X9. The pasted rectangle keeps a margin of at least floor (size / 10)
    pixels to every edge of the canvas. *)
Theorem content_margins (w h size : Z) :
  0 < w <= PIL.INT_MAX -> 0 < h <= PIL.INT_MAX -> 0 < size <= PIL.INT_MAX ->
  exists l,
    Android.scale_and_center w h size = Ok l /\
    size / 10 <= off_x l /\ size / 10 <= off_y l /\
    off_x l + new_width l <= size - size / 10 /\
    off_y l + new_height l <= size - size / 10.
Proof.
  intros Hw Hh Hs. pose proof int_max_lt_pow49 as B.
  destruct (scale_and_center_spec w h size)
    as (l & El & Ex & Ey & Hwide & Htall);
    try (change (2 ^ 50) with (2 * 2 ^ 49)); try lia.
  exists l. split; [assumption|].
  assert (Hb : 0 <= new_width l <= 4 * size / 5 /\ 0 <= new_height l <= 4 * size / 5).
  { destruct (Z_lt_le_dec h w) as [Hlt | Hle].
    - destruct (Hwide Hlt) as (E1 & Hb & _). lia.
    - destruct (Htall Hle) as (E1 & Hb & _). lia. }
  destruct Hb as [Hbw Hbh].
  pose proof (Z_div_mod_eq_full (4 * size) 5) as E5.
  pose proof (Z.mod_pos_bound (4 * size) 5 ltac:(lia)) as M5.
  pose proof (Z_div_mod_eq_full size 10) as E10.
  pose proof (Z.mod_pos_bound size 10 ltac:(lia)) as M10.
  set (a := size - new_width l) in *. set (b := size - new_height l) in *.
  pose proof (Z_div_mod_eq_full a 2) as Ea. pose proof (Z.mod_pos_bound a 2 ltac:(lia)) as Ma.
  pose proof (Z_div_mod_eq_full b 2) as Eb. pose proof (Z.mod_pos_bound b 2 ltac:(lia)) as Mb.
  rewrite Ex, Ey. unfold a, b in *. repeat split; lia.
Qed.

Lemma content_margins_witness :
  exists l,
    Android.scale_and_center 200 100 96 = Ok l /\
    96 / 10 <= off_x l /\ 96 / 10 <= off_y l /\
    off_x l + new_width l <= 96 - 96 / 10 /\
    off_y l + new_height l <= 96 - 96 / 10.
Proof.
  apply (content_margins 200 100 96);
    vm_compute; (split; [reflexivity | discriminate]).
Defined.

(** X10. A zero width does not raise in the scale computation, unlike a
    zero height: the content is 0 wide and floor (4 * size / 5) high. *)
Theorem zero_width_layout (h size : Z) :
  0 < h -> 0 < size <= PIL.INT_MAX ->
  Android.scale_and_center 0 h size
  = Ok (mkLayout 0 (4 * size / 5) (size / 2) ((size - 4 * size / 5) / 2)).
Proof.
  intros Hh Hs. pose proof int_max_lt_pow49 as B.
  destruct (primary_dim size ltac:(lia)) as (tf & Et & Ei).
  set (m := 4 * size / 5) in *.
  assert (Hm : 0 <= m < 2 ^ 49).
  { unfold m. split; [apply Z.div_pos; lia|]. apply Z.div_lt_upper_bound; lia. }
  unfold Android.scale_and_center.
  destruct h as [| ph | ph]; try lia.
  cbn [Py.int_truediv bind].
  change (Py.float_gt_one (S754_zero false)) with false. cbv iota.
  rewrite Et. cbn [bind]. rewrite Ei. cbn [bind].
  assert (Ew : exists p, Py.int_mul_float m (S754_zero false) = Ok p /\
                         Py.int_of_float p = Ok 0).
  { destruct (Z.eq_dec m 0) as [E0 | Hm0].
    - rewrite E0. exists (S754_zero false). split; reflexivity.
    - destruct (float_of_int_fl m) as (Mm & tm & E & _); [lia|].
      exists (S754_zero false). unfold Py.int_mul_float. rewrite E.
      split; reflexivity. }
  destruct Ew as (p & Ep & Eip). rewrite Ep. cbn [bind]. rewrite Eip. cbn [bind].
  rewrite Z.sub_0_r. reflexivity.
Qed.

Lemma zero_width_layout_witness :
  Android.scale_and_center 0 38 48
  = Ok (mkLayout 0 (4 * 48 / 5) (48 / 2) ((48 - 4 * 48 / 5) / 2)).
Proof.
  apply (zero_width_layout 38 48);
    [reflexivity | vm_compute; split; [reflexivity | discriminate]].
Defined.

(** ** The emblem *)







(** ** The emblem run *)

Lemma logo_for_sizes_spec (entries : list (string * Z)) :
  forall fs : gmap string Logo.drawing,
    (forall p, p ∉ Logo.paths entries ->
       Logo.for_sizes entries fs !! p = fs !! p) /\
    dom (Logo.for_sizes entries fs) = dom fs ∪ list_to_set (Logo.paths entries) /\
    (NoDup (Logo.paths entries) ->
     forall folder size, (folder, size) ∈ entries ->
       Logo.for_sizes entries fs !! Logo.icon_path folder
       = Some (Logo.create_humaya_logo size)).
Proof.
  induction entries as [| [folder0 size0] rest IH]; intros fs.
  - split; [reflexivity|].
    split; [cbn [Logo.paths Logo.for_sizes map list_to_set];
            rewrite union_empty_r_L; reflexivity|].
    intros _ folder size Hin. inversion Hin.
  - cbn [Logo.for_sizes].
    destruct (IH (<[Logo.icon_path folder0 := Logo.create_humaya_logo size0]> fs))
      as (Hother & Hdom & Hin).
    cbn [Logo.paths map fst] in *. fold (Logo.paths rest) in *.
    split; [|split].
    + intros p Hp. apply not_elem_of_cons in Hp as [Hne Hp].
      rewrite Hother by assumption.
      apply lookup_insert_ne. congruence.
    + rewrite Hdom, dom_insert_L, list_to_set_cons.
      rewrite (comm_L (∪) _ (dom fs)), (assoc_L (∪)). reflexivity.
    + intros Hnd folder size Hmem.
      apply NoDup_cons in Hnd as [Hfresh Hnd].
      apply elem_of_cons in Hmem as [[= -> ->] | Hmem].
      * rewrite Hother by assumption. apply lookup_insert_eq.
      * apply Hin; assumption.
Qed.

(** X12. The emblem generator saves to the same five paths as the logo
    generator, so each overwrites the other's icons; under every density
    directory it leaves the emblem drawn at that density's size, it
    touches no other path, and running it twice is the same as running
    it once. *)
Theorem emblem_run_files (fs : gmap string Logo.drawing) :
  Logo.paths Logo.sizes = Android.paths Android.sizes /\
  NoDup (Logo.paths Logo.sizes) /\
  (forall folder size, (folder, size) ∈ Logo.sizes ->
     Logo.create_app_icons fs !! Logo.icon_path folder
     = Some (Logo.create_humaya_logo size)) /\
  (forall p, p ∉ Logo.paths Logo.sizes ->
     Logo.create_app_icons fs !! p = fs !! p) /\
  dom (Logo.create_app_icons fs) = dom fs ∪ list_to_set (Logo.paths Logo.sizes) /\
  Logo.create_app_icons (Logo.create_app_icons fs) = Logo.create_app_icons fs.
Proof.
  assert (Hnd : NoDup (Logo.paths Logo.sizes)).
  { apply (bool_decide_unpack _). vm_compute. exact I. }
  unfold Logo.create_app_icons.
  destruct (logo_for_sizes_spec Logo.sizes fs) as (Hother & Hdom & Hin).
  split; [reflexivity|]. split; [assumption|].
  split; [apply Hin; assumption|]. split; [assumption|]. split; [assumption|].
  destruct (logo_for_sizes_spec Logo.sizes (Logo.for_sizes Logo.sizes fs))
    as (Hother' & _ & Hin').
  apply map_eq. intros p.
  destruct (decide (p ∈ Logo.paths Logo.sizes)) as [Hp | Hp].
  - unfold Logo.paths in Hp. apply list_elem_of_In, in_map_iff in Hp.
    destruct Hp as ([folder size] & <- & Hmem). apply list_elem_of_In in Hmem.
    cbn [fst]. rewrite (Hin' Hnd folder size Hmem), (Hin Hnd folder size Hmem).
    reflexivity.
  - apply Hother'. exact Hp.
Qed.

(** ** Worked instances of the further properties *)

Lemma render_threshold_witness :
  (Z.max (width (Sample.solid 200 100)) (height (Sample.solid 200 100))
   < 4 * 96 / 5 * Z.min (width (Sample.solid 200 100)) (height (Sample.solid 200 100)) ->
   exists icon,
     Android.render_icon Sample.nearest Sample.over (Sample.solid 200 100) 96 = Ok icon) /\
  (4 * 96 / 5 * Z.min (width (Sample.solid 200 100)) (height (Sample.solid 200 100))
   < Z.max (width (Sample.solid 200 100)) (height (Sample.solid 200 100)) ->
   Android.render_icon Sample.nearest Sample.over (Sample.solid 200 100) 96
   = Raise ValueError).
Proof.
  apply (render_threshold Sample.nearest Sample.over (Sample.solid 200 100) 96);
    vm_compute; (split; [reflexivity | first [discriminate | reflexivity]]).
Defined.

Lemma renders_at_larger_witness :
  exists icon',
    Android.render_icon Sample.nearest Sample.over (Sample.solid 200 100) 96 = Ok icon'.
Proof.
  destruct (Android.render_icon Sample.nearest Sample.over (Sample.solid 200 100) 48)
    as [icon | e] eqn:E; [|vm_compute in E; discriminate].
  assert (R : forall z : Z, 0 < z -> (z ?= PIL.INT_MAX) <> Gt -> 0 < z <= PIL.INT_MAX)
    by (intros z H1 H2; split; [exact H1 | exact H2]).
  apply (renders_at_larger Sample.nearest Sample.over (Sample.solid 200 100) 48 96 icon).
  - apply R; [reflexivity | discriminate].
  - apply R; [reflexivity | discriminate].
  - split; reflexivity.
  - split; reflexivity.
  - reflexivity.
  - exact E.
Defined.


Lemma android_run_idempotent_witness :
  exists fs' : filesystem,
    Android.create_app_icons_from_logo Sample.nearest Sample.over
      (Sample.solid 200 100) ∅ = (fs', Ok tt) /\
    Android.create_app_icons_from_logo Sample.nearest Sample.over
      (Sample.solid 200 100) fs' = (fs', Ok tt).
Proof.
  destruct (Android.create_app_icons_from_logo Sample.nearest Sample.over
              (Sample.solid 200 100) ∅) as [fs' r] eqn:E.
  assert (Hr : r = Ok tt).
  { apply (f_equal snd) in E. cbn [snd] in E. rewrite <- E.
    vm_compute. reflexivity. }
  subst r. exists fs'. split; [reflexivity|].
  apply (android_run_idempotent Sample.nearest Sample.over (Sample.solid 200 100) ∅ fs' E).
Defined.

Lemma ios_run_files_witness :
  exists fs' : filesystem,
    IOS.create_ios_icons_from_logo Sample.nearest Sample.over
      (Sample.solid 200 100) ∅ = (fs', Ok tt) /\
    (forall filename size, (filename, size) ∈ IOS.ios_sizes ->
       exists icon, fs' !! path_join IOS.base_path filename = Some icon /\
                    width icon = size /\ height icon = size) /\
    dom fs' = dom (∅ : filesystem) ∪ list_to_set (IOS.paths IOS.ios_sizes).
Proof.
  destruct (IOS.create_ios_icons_from_logo Sample.nearest Sample.over
              (Sample.solid 200 100) ∅) as [fs' r] eqn:E.
  assert (Hr : r = Ok tt).
  { apply (f_equal snd) in E. cbn [snd] in E. rewrite <- E.
    vm_compute. reflexivity. }
  subst r. exists fs'. split; [reflexivity|].
  destruct (ios_run_files Sample.nearest Sample.over (Sample.solid 200 100) ∅ fs' E)
    as (_ & _ & H1 & _ & H2 & _).
  split; assumption.
Defined.


